(** * Exo-plan-ate: the catalog derivation engine of [layman.py]

    A shallow embedding of the record-normalisation and derivation functions
    of [src/layman.py], of [parallax_to_light_years] and [is_habitable] of
    [src/app.py], of the assessment column of [src/upload.py] and of the
    habitable-zone flag of [src/exocli.py], followed by the properties the
    specification states about them and by further properties of the code.

    Modelling conventions.
    - Python numbers (JSON ints and floats) are real numbers [R]; arithmetic
      is exact, so statements hold up to the rounding of IEEE doubles, and
      the non-finite floats (inf, nan) are outside the model.  Where the
      rounding decides what the program answers, the function is given a
      second time on binary64 floats ([calculate_hzd_b64]).
    - A Python [str] is a [string] holding its UTF-8 encoding, the way Rocq
      writes a string literal.
    - A JSON/Python value read from a record is a [value]: [None], a
      number or a string.
    - A catalog record (a Python [dict] produced by [json.load]) is a
      [gmap string value]; a key may be missing, or present with [None].
    - Exceptions are explicit: every function that can raise returns a
      [result], and the exception classes that the code can raise on these
      values are the constructors of [exn]. *)

From Stdlib Require Import Floats.
From Stdlib Require Import Reals Lra Psatz Ascii String.
From stdpp Require Import gmap strings list listset.

Local Open Scope R_scope.

(** ** Exceptions and the error monad *)

Inductive exn : Type :=
| TypeError
| ValueError
| ZeroDivisionError
| IndexError
| UnboundLocalError.

Inductive result (A : Type) : Type :=
| Ok (a : A)
| Raise (e : exn).

Arguments Ok {A} a.
Arguments Raise {A} e.

#[global] Instance result_ret : MRet result := fun A a => Ok a.
#[global] Instance result_bind : MBind result := fun A B f c =>
  match c with
  | Ok a => f a
  | Raise e => Raise e
  end.

Definition is_ok {A} (c : result A) : bool :=
  match c with Ok _ => true | Raise _ => false end.

(** ** Decidable order on the reals, as [Decision] instances *)

#[global] Instance Rlt_decision : RelDecision Rlt := Rlt_dec.
#[global] Instance Rle_decision : RelDecision Rle := Rle_dec.
#[global] Instance Rgt_decision : RelDecision Rgt := Rgt_dec.
#[global] Instance Req_decision : EqDecision R := Req_dec_T.

(** ** Python values and records *)

Inductive value : Type :=
| VNone
| VNum (x : R)
| VStr (s : string).  (* the UTF-8 encoding of the [str] *)

#[global] Instance value_eq_dec : EqDecision value.
Proof. solve_decision. Defined.

Abbreviation record := (gmap string value).

(** [d.get(k)]: [None] when the key is missing. *)
Definition get (d : record) (k : string) : value := default VNone (d !! k).

(** [d.get(k, dflt)]: the default only replaces a missing key. *)
Definition get_default (d : record) (k : string) (dflt : value) : value :=
  default dflt (d !! k).

(** [v is None] *)
Definition is_none (v : value) : bool :=
  match v with VNone => true | _ => false end.

(** Truth value of [v] in a condition: [None], [0] and [''] are false. *)
Definition truthy (v : value) : bool :=
  match v with
  | VNone => false
  | VNum x => bool_decide (x <> 0)
  | VStr s => bool_decide (s <> ""%string)
  end.

(** A value used as an operand of float arithmetic or of an ordering
    comparison with a number: a [str] or [None] operand raises TypeError. *)
Definition as_num (v : value) : result R :=
  match v with
  | VNum x => Ok x
  | _ => Raise TypeError
  end.

(** [x / y] on floats. *)
Definition py_div (x y : R) : result R :=
  if decide (y = 0) then Raise ZeroDivisionError else Ok (x / y).

(** [math.sqrt(x)]. *)
Definition math_sqrt (x : R) : result R :=
  if decide (x < 0) then Raise ValueError else Ok (sqrt x).

(** [v < c] and [lo <= v <= hi] for a record value [v] and constants. *)
Definition lt_num (v : value) (c : R) : result bool :=
  x ← as_num v; Ok (bool_decide (x < c)).

Definition gt_num (v : value) (c : R) : result bool :=
  x ← as_num v; Ok (bool_decide (x > c)).

Definition between_num (lo : R) (v : value) (hi : R) : result bool :=
  x ← as_num v; Ok (bool_decide (lo <= x) && bool_decide (x <= hi)).

(** Short-circuit [a and b] of two comparisons that may raise. *)
Definition and_then (a b : result bool) : result bool :=
  a ≫= λ x : bool, if x then b else Ok false.

(** ** The numeric core *)

(** [calculate_habitable_zone(star_luminosity, star_temp)] *)
Definition calculate_habitable_zone (star_luminosity star_temp : R)
  : result (R * R) :=
  let ts := 5700 in
  let ai := 2.7619e-5 in
  let bi := 3.8095e-9 in
  let ao := 1.3786e-4 in
  let bo := 1.4286e-9 in
  let ris := 0.72 in
  let ros := 1.77 in
  qi ← py_div star_luminosity
         (1.0 + ai * (star_temp - ts) - bi * (star_temp - ts) ^ 2);
  si ← math_sqrt qi;
  let ri := ris * si in
  qo ← py_div star_luminosity
         (1.0 + ao * (star_temp - ts) - bo * (star_temp - ts) ^ 2);
  so ← math_sqrt qo;
  let ro := ros * so in
  Ok (ri, ro).

(** [calculate_hzd(planet_distance, inner_hz, outer_hz)] *)
Definition calculate_hzd (planet_distance inner_hz outer_hz : R) : result R :=
  let hz_center := (inner_hz + outer_hz) / 2 in
  let hz_half_width := (outer_hz - inner_hz) / 2 in
  hzd ← py_div (planet_distance - hz_center) hz_half_width;
  Ok hzd.

(** [calculate_hzd] on binary64 floats, operation by operation: each
    of the five operations rounds to nearest, the integer [2] is
    converted to [2.0], and a division by a zero of either sign raises. *)
Definition calculate_hzd_b64 (planet_distance inner_hz outer_hz : float)
  : result float :=
  let hz_center := PrimFloat.div (PrimFloat.add inner_hz outer_hz) 2%float in
  let hz_half_width :=
    PrimFloat.div (PrimFloat.sub outer_hz inner_hz) 2%float in
  if PrimFloat.eqb hz_half_width 0%float then Raise ZeroDivisionError
  else Ok (PrimFloat.div (PrimFloat.sub planet_distance hz_center)
             hz_half_width).

(** The in-zone test of [is_planet_habitable] on binary64 floats:
    [inner_hz <= planet_distance <= outer_hz]. *)
Definition in_habitable_zone_b64 (planet_distance inner_hz outer_hz : float)
  : bool :=
  PrimFloat.leb inner_hz planet_distance
  && PrimFloat.leb planet_distance outer_hz.

(** [parse_stellar_luminosity(star_radius, star_temp)] *)
Definition parse_stellar_luminosity (star_radius star_temp : value)
  : result value :=
  if negb (truthy star_radius) || negb (truthy star_temp) then Ok VNone
  else
    let sun_temp := 5778 in
    r ← as_num star_radius;
    t ← as_num star_temp;
    Ok (VNum (r ^ 2 * (t / sun_temp) ^ 4)).

(** [calculate_earth_distance_light_years(parallax, distance_parsecs)].
    [parallax != 0] is true of every string. *)
Definition calculate_earth_distance_light_years
    (parallax distance_parsecs : value) : result value :=
  if negb (is_none distance_parsecs) then
    d ← as_num distance_parsecs;
    Ok (VNum (d * 3.26))
  else if negb (is_none parallax) && bool_decide (parallax <> VNum 0) then
    p ← as_num parallax;
    parsecs ← py_div 1000 p;
    Ok (VNum (parsecs * 3.26))
  else Ok VNone.

(** [parallax_to_light_years(plx)] of [app.py], applied to the cells of a
    pandas column.  A missing cell ([NaN] or [None], the values on which
    [pd.isna] is true) is [VNone], and so is the [np.nan] it returns.  The
    comparison [plx <= 0] stands before the [try] block. *)
Definition parallax_to_light_years (plx : value) : result value :=
  let PARSEC_TO_LIGHT_YEAR := 3.26 in
  if is_none plx then Ok VNone
  else
    (x ← as_num plx; Ok (bool_decide (x <= 0))) ≫= λ nonpos : bool,
    if nonpos then Ok VNone
    else
      match (p ← as_num plx; parsecs ← py_div 1000 p;
             Ok (VNum (parsecs * PARSEC_TO_LIGHT_YEAR))) with
      | Ok light_years => Ok light_years
      | Raise _ => Ok VNone
      end.

(** ** Classifiers over a record

    [planet_mass] and [planet_radius] are the dictionaries the caller
    passes (the whole record, which has a [get] attribute), or [None]. *)

(** [is_planet_habitable]: the value of [mass_suitable]. *)
Definition habitable_mass_suitable (planet_mass : option record)
  : result bool :=
  match planet_mass with
  | None => Ok true
  | Some pm =>
      if negb (is_none (get pm "pl_bmassj")) then
        jupiter_mass ← as_num (get pm "pl_bmassj");
        let earth_mass_equivalent := jupiter_mass * 317.8 in
        between_num 0.1 (VNum earth_mass_equivalent) 10
      else if negb (is_none (get pm "pl_bmasse")) then
        let earth_mass := get pm "pl_bmasse" in
        between_num 0.1 earth_mass 10
      else Ok true
  end.

(** [is_planet_habitable]: the value of [size_suitable]. *)
Definition habitable_size_suitable (planet_radius : option record)
  : result bool :=
  match planet_radius with
  | None => Ok true
  | Some pr =>
      if negb (is_none (get pr "pl_rade")) then
        let earth_radius := get pr "pl_rade" in
        between_num 0.5 earth_radius 2.0
      else Ok true
  end.

(** [is_planet_habitable(planet_distance, inner_hz, outer_hz,
    planet_mass, planet_radius)] *)
Definition is_planet_habitable (planet_distance inner_hz outer_hz : R)
    (planet_mass planet_radius : option record) : result string :=
  let in_habitable_zone :=
    bool_decide (inner_hz <= planet_distance)
    && bool_decide (planet_distance <= outer_hz) in
  habitable_mass_suitable planet_mass ≫= λ mass_suitable : bool,
  habitable_size_suitable planet_radius ≫= λ size_suitable : bool,
  if in_habitable_zone then
    if mass_suitable && size_suitable then Ok "Potentially habitable"%string
    else Ok "In habitable zone but may not have right mass/size for habitability"%string
  else Ok "Not in habitable zone"%string.

(** [get_planet_type]: the value of [earth_mass] after the extraction
    block ([VNone] is Python's [None]; the Earth-unit fields are copied
    without arithmetic, so a string survives until it is compared). *)
Definition planet_type_earth_mass (planet_mass : option record)
  : result value :=
  match planet_mass with
  | None => Ok VNone
  | Some pm =>
      if negb (is_none (get pm "pl_bmassj")) then
        jupiter_mass ← as_num (get pm "pl_bmassj");
        Ok (VNum (jupiter_mass * 317.8))
      else if negb (is_none (get pm "pl_bmasse")) then
        Ok (get pm "pl_bmasse")
      else if negb (is_none (get pm "pl_msinij")) then
        jupiter_mass ← as_num (get pm "pl_msinij");
        Ok (VNum (jupiter_mass * 317.8))
      else if negb (is_none (get pm "pl_msinie")) then
        Ok (get pm "pl_msinie")
      else Ok VNone
  end.

(** [get_planet_type] and [calculate_surface_gravity]: the value of
    [earth_radius] after the extraction block. *)
Definition extract_earth_radius (planet_radius : option record)
  : result value :=
  match planet_radius with
  | None => Ok VNone
  | Some pr =>
      if negb (is_none (get pr "pl_rade")) then
        Ok (get pr "pl_rade")
      else if negb (is_none (get pr "pl_radj")) then
        jupiter_radius ← as_num (get pr "pl_radj");
        Ok (VNum (jupiter_radius * 11.2))
      else Ok VNone
  end.

(** A chain [if c1: return l1 elif c2: return l2 ... else: return l]. *)
Fixpoint first_branch (branches : list (result bool * string))
    (otherwise : string) : result string :=
  match branches with
  | [] => Ok otherwise
  | (cond, label) :: rest =>
      cond ≫= λ c : bool, if c then Ok label else first_branch rest otherwise
  end.

(** [get_planet_type]: the three decision tables. *)
Definition classify_planet (earth_mass earth_radius : value)
  : result string :=
  if negb (is_none earth_mass) && negb (is_none earth_radius) then
    first_branch
      [ (lt_num earth_mass 0.1, "Sub-Earth/Mercury-like");
        (and_then (lt_num earth_mass 2) (lt_num earth_radius 1.5),
         "Earth-like terrestrial planet");
        (and_then (lt_num earth_mass 10) (lt_num earth_radius 2.5),
         "Super-Earth");
        (and_then (lt_num earth_mass 50) (lt_num earth_radius 6),
         "Mini-Neptune/Gas Dwarf");
        (lt_num earth_mass 500, "Neptune-like gas giant") ]%string
      "Jupiter-like gas giant"
  else if negb (is_none earth_mass) then
    first_branch
      [ (lt_num earth_mass 0.1, "Sub-Earth/Mercury-like");
        (lt_num earth_mass 2, "Possibly Earth-like");
        (lt_num earth_mass 10, "Possibly Super-Earth");
        (lt_num earth_mass 50, "Possibly Mini-Neptune");
        (lt_num earth_mass 500, "Neptune-like gas giant") ]%string
      "Jupiter-like gas giant"
  else if negb (is_none earth_radius) then
    first_branch
      [ (lt_num earth_radius 0.8, "Sub-Earth/Mercury-like");
        (lt_num earth_radius 1.5, "Possibly Earth-like");
        (lt_num earth_radius 2.5, "Possibly Super-Earth");
        (lt_num earth_radius 6, "Possibly Mini-Neptune/Gas Dwarf");
        (lt_num earth_radius 15, "Neptune-like gas giant") ]%string
      "Jupiter-like gas giant"
  else Ok "Unknown (insufficient data)"%string.

(** [get_planet_type(planet_mass, planet_radius)] *)
Definition get_planet_type (planet_mass planet_radius : option record)
  : result string :=
  earth_mass ← planet_type_earth_mass planet_mass;
  earth_radius ← extract_earth_radius planet_radius;
  classify_planet earth_mass earth_radius.

(** [calculate_surface_gravity]: the value of [earth_mass] after the
    extraction block, which reads the two measured-mass fields and not
    the minimum-mass ones. *)
Definition measured_earth_mass (planet_mass : option record) : result value :=
  match planet_mass with
  | None => Ok VNone
  | Some pm =>
      if negb (is_none (get pm "pl_bmassj")) then
        jupiter_mass ← as_num (get pm "pl_bmassj");
        Ok (VNum (jupiter_mass * 317.8))
      else if negb (is_none (get pm "pl_bmasse")) then
        Ok (get pm "pl_bmasse")
      else Ok VNone
  end.

(** [calculate_surface_gravity(planet_mass, planet_radius)].  In
    [earth_mass / (earth_radius**2)] the power is evaluated before the
    division. *)
Definition calculate_surface_gravity (planet_mass planet_radius : option record)
  : result value :=
  earth_mass ← measured_earth_mass planet_mass;
  earth_radius ← extract_earth_radius planet_radius;
  if is_none earth_mass || is_none earth_radius then Ok VNone
  else
    r ← as_num earth_radius;
    m ← as_num earth_mass;
    gravity ← py_div m (r ^ 2);
    Ok (VNum gravity).

(** ** Strings: the [str] methods used by the star classifier

    A Python [str] is represented by its UTF-8 encoding, the way Rocq
    writes a string literal: U+00A0 is the two characters ["194"] and
    ["160"].  Comparison with a literal, [startswith] and [in] with an
    ASCII pattern are the same on the encoding as on the code points. *)

(** The code points that are whitespace for [str.strip] and [str.split]
    (those on which [str.isspace] is true), by the length of their
    encoding: U+0009 to U+000D and U+001C to U+0020; *)
Definition space1 (c : ascii) : bool :=
  let n := nat_of_ascii c in
  ((9 <=? n) && (n <=? 13) || (28 <=? n) && (n <=? 32))%nat.

(** U+0085 and U+00A0; *)
Definition space2 (c1 c2 : ascii) : bool :=
  let n1 := nat_of_ascii c1 in
  let n2 := nat_of_ascii c2 in
  ((n1 =? 194) && ((n2 =? 133) || (n2 =? 160)))%nat.

(** U+1680, U+2000 to U+200A, U+2028, U+2029, U+202F, U+205F and
    U+3000. *)
Definition space3 (c1 c2 c3 : ascii) : bool :=
  let n1 := nat_of_ascii c1 in
  let n2 := nat_of_ascii c2 in
  let n3 := nat_of_ascii c3 in
  ((n1 =? 225) && (n2 =? 154) && (n3 =? 128)
   || (n1 =? 226) && (n2 =? 128)
      && ((128 <=? n3) && (n3 <=? 138)
          || (n3 =? 168) || (n3 =? 169) || (n3 =? 175))
   || (n1 =? 226) && (n2 =? 129) && (n3 =? 159)
   || (n1 =? 227) && (n2 =? 128) && (n3 =? 128))%nat.

(** What follows the whitespace code point at the head of [s], when
    there is one. *)
Definition skip_space (s : string) : option string :=
  match s with
  | EmptyString => None
  | String c1 s1 =>
      if space1 c1 then Some s1
      else
        match s1 with
        | EmptyString => None
        | String c2 s2 =>
            if space2 c1 c2 then Some s2
            else
              match s2 with
              | EmptyString => None
              | String c3 s3 => if space3 c1 c2 c3 then Some s3 else None
              end
        end
  end.

(** [s.isspace()], also true of the empty string here. *)
Fixpoint only_whitespace (s : string) : bool :=
  match s with
  | EmptyString => true
  | String c1 s1 =>
      if space1 c1 then only_whitespace s1
      else
        match s1 with
        | EmptyString => false
        | String c2 s2 =>
            if space2 c1 c2 then only_whitespace s2
            else
              match s2 with
              | EmptyString => false
              | String c3 s3 =>
                  if space3 c1 c2 c3 then only_whitespace s3 else false
              end
        end
  end.

(** [s.lstrip()] *)
Fixpoint str_lstrip (s : string) : string :=
  match s with
  | EmptyString => EmptyString
  | String c1 s1 =>
      if space1 c1 then str_lstrip s1
      else
        match s1 with
        | EmptyString => s
        | String c2 s2 =>
            if space2 c1 c2 then str_lstrip s2
            else
              match s2 with
              | EmptyString => s
              | String c3 s3 =>
                  if space3 c1 c2 c3 then str_lstrip s3 else s
              end
        end
  end.

(** [s.rstrip()]: [s] without its longest suffix of whitespace. *)
Fixpoint str_rstrip (s : string) : string :=
  match s with
  | EmptyString => EmptyString
  | String c s' =>
      if only_whitespace s then EmptyString else String c (str_rstrip s')
  end.

(** [s.strip()] *)
Definition str_strip (s : string) : string := str_rstrip (str_lstrip s).

(** The words of [s] after the word [cur] being read (held in reverse),
    if any. *)
Fixpoint str_split_go (cur : option string) (s : string) : list string :=
  let flush := option_list (String.rev <$> cur) in
  match s with
  | EmptyString => flush
  | String c1 s1 =>
      let word := str_split_go (Some (String c1 (default EmptyString cur))) s1 in
      if space1 c1 then flush ++ str_split_go None s1
      else
        match s1 with
        | EmptyString => word
        | String c2 s2 =>
            if space2 c1 c2 then flush ++ str_split_go None s2
            else
              match s2 with
              | EmptyString => word
              | String c3 s3 =>
                  if space3 c1 c2 c3 then flush ++ str_split_go None s3
                  else word
              end
        end
  end.

(** [s.split()] *)
Definition str_split (s : string) : list string := str_split_go None s.

(** [s.startswith(p)] *)
Definition str_startswith (s p : string) : bool := String.prefix p s.

(** [sub in s] *)
Fixpoint str_contains (sub s : string) : bool :=
  String.prefix sub s ||
  match s with
  | EmptyString => false
  | String _ s' => str_contains sub s'
  end.

(** [get_star_type_from_spectype(spectype)]; [None] is Python's [None]. *)
Definition get_star_type_from_spectype (spectype : value)
  : result (option string) :=
  if negb (truthy spectype) then Ok None
  else
    match spectype with
    | VStr s =>
        match str_split (str_strip s) with
        | [] => Raise IndexError
        | spectral_type :: _ =>
            let giant :=
              str_contains "III" s || str_contains "II" s
              || str_contains "I" s in
            if bool_decide (spectral_type = ""%string) then Ok None
            else if str_startswith spectral_type "O" then
              Ok (Some "extremely hot O-type star"%string)
            else if str_startswith spectral_type "B" then
              Ok (Some "very hot B-type star"%string)
            else if str_startswith spectral_type "A" then
              Ok (Some "hot A-type star"%string)
            else if str_startswith spectral_type "F" then
              Ok (Some "F-type star (hotter than our Sun)"%string)
            else if str_startswith spectral_type "G" then
              if giant then Ok (Some "G-type giant star"%string)
              else Ok (Some "G-type star (similar to our Sun)"%string)
            else if str_startswith spectral_type "K" then
              if giant then Ok (Some "K-type giant star"%string)
              else Ok (Some "K-type orange dwarf star"%string)
            else if str_startswith spectral_type "M" then
              if giant then Ok (Some "M-type giant star"%string)
              else Ok (Some "M-type red dwarf star"%string)
            else if str_startswith spectral_type "L"
                    || str_startswith spectral_type "T"
                    || str_startswith spectral_type "Y" then
              Ok (Some "very cool brown dwarf"%string)
            else Ok (Some "unknown type star"%string)
        end
    | _ => Ok None
    end.

(** Truth value of an optional label: [None] and [''] are false. *)
Definition label_truthy (o : option string) : bool :=
  match o with
  | Some s => bool_decide (s <> ""%string)
  | None => false
  end.

(** ** Explanation records *)

(** A formatted sentence: literal text, a number printed with a fixed
    number of decimals ([{x:.1f}]), or a value printed by [str]. *)
Inductive frag : Type :=
| Txt (s : string)
| Fixed (digits : nat) (x : R)
| Shown (v : value).

(** [f"{v:.Nf}"]: a string has no format code [f]. *)
Definition fmt_f (digits : nat) (v : value) : result frag :=
  match v with
  | VNum x => Ok (Fixed digits x)
  | VStr _ => Raise ValueError
  | VNone => Raise TypeError
  end.

(** One entry of [results["layman_explanation"]]: its ["answer"] and its
    other keys. *)
Record entry : Type := Entry {
  answer : list frag;
  fields : gmap string value
}.

(** The dictionary [results] built by [analyze_exoplanet]. *)
Record explanation : Type := Explanation {
  planet_name : value;
  host_star : value;
  discovery_method : value;
  discovery_year : value;
  layman_explanation : gmap string entry
}.

(** [results["layman_explanation"][section][key]] *)
Definition explained (res : explanation) (section key : string)
  : option value :=
  e ← layman_explanation res !! section; fields e !! key.

(** ** [analyze_exoplanet], block by block *)

Section Analyze.
Variable planet_data : record.

(** "If luminosity not directly provided, calculate from radius and
    temperature": the value of [star_luminosity] used afterwards. *)
Definition resolve_star_luminosity : result value :=
  let star_radius := get planet_data "st_rad" in
  let star_temp := get planet_data "st_teff" in
  let star_luminosity := get planet_data "st_lum" in
  if is_none star_luminosity && truthy star_radius && truthy star_temp
  then parse_stellar_luminosity star_radius star_temp
  else Ok star_luminosity.

(** "Include distance information" *)
Definition explain_distance : result entry :=
  let parallax := get planet_data "sy_plx" in
  let distance_parsecs := get planet_data "sy_dist" in
  distance_ly ←
    calculate_earth_distance_light_years parallax distance_parsecs;
  if truthy distance_ly then
    ly ← fmt_f 1 distance_ly;
    Ok (Entry [Txt "This planet is approximately "; ly;
               Txt " light years away from Earth."]
          {[ "value" := distance_ly; "unit" := VStr "light years" ]})
  else
    Ok (Entry [Txt "Insufficient data to determine distance from Earth."]
          {[ "value" := VNone; "unit" := VStr "light years" ]}).

(** "Determine habitability" *)
Definition explain_habitability (star_luminosity : value) : result entry :=
  let star_temp := get planet_data "st_teff" in
  let planet_distance := get planet_data "pl_orbsmax" in
  if truthy star_luminosity && truthy star_temp && truthy planet_distance
  then
    l ← as_num star_luminosity;
    t ← as_num star_temp;
    '(inner_hz, outer_hz) ← calculate_habitable_zone l t;
    d ← as_num planet_distance;
    hzd ← calculate_hzd d inner_hz outer_hz;
    habitability ←
      is_planet_habitable d inner_hz outer_hz
        (Some planet_data) (Some planet_data);
    position ←
      (if decide (hzd < -1) then Ok "too close to its star (too hot)"
       else if decide (hzd > 1) then Ok "too far from its star (too cold)"
       else if decide (-1 <= hzd <= 1) then Ok "within the habitable zone"
       else Raise UnboundLocalError)%string;
    Ok (Entry [Txt "This planet is "; Txt position; Txt ". ";
               Txt habitability; Txt "."]
          {[ "habitable_zone_distance" := VNum hzd;
             "inner_habitable_boundary" := VNum inner_hz;
             "outer_habitable_boundary" := VNum outer_hz;
             "actual_distance" := planet_distance;
             "assessment" := VStr habitability ]})
  else
    Ok (Entry [Txt "Insufficient data to determine habitability."]
          {[ "habitable_zone_distance" := VNone;
             "assessment" := VStr "Unknown" ]}).

(** "Determine planet type" *)
Definition explain_planet_type : result entry :=
  planet_type ← get_planet_type (Some planet_data) (Some planet_data);
  Ok (Entry [Txt "This appears to be a "; Txt planet_type; Txt "."]
        {[ "type" := VStr planet_type ]}).

(** "Determine size comparison to Earth" *)
Definition explain_size : result entry :=
  if truthy (get planet_data "pl_rade") then
    let earth_radius_ratio := get planet_data "pl_rade" in
    e ← fmt_f 1 earth_radius_ratio;
    Ok (Entry [Txt "This planet is approximately "; e;
               Txt " times the radius of Earth."]
          {[ "earth_radius_ratio" := earth_radius_ratio ]})
  else if truthy (get planet_data "pl_radj") then
    let jupiter_radius_ratio := get planet_data "pl_radj" in
    j ← as_num jupiter_radius_ratio;
    let earth_radius_ratio := j * 11.2 in
    Ok (Entry [Txt "This planet is approximately ";
               Fixed 1 earth_radius_ratio;
               Txt " times the radius of Earth (or "; Fixed 2 j;
               Txt " Jupiter radii)."]
          {[ "earth_radius_ratio" := VNum earth_radius_ratio;
             "jupiter_radius_ratio" := jupiter_radius_ratio ]})
  else
    Ok (Entry
          [Txt "Insufficient data to determine the planet's size relative to Earth."]
          {[ "earth_radius_ratio" := VNone ]}).

(** "Determine mass comparison to Earth" *)
Definition explain_mass : result entry :=
  let note :=
    VStr "This is a minimum mass value derived from radial velocity measurements." in
  if truthy (get planet_data "pl_bmasse") then
    let earth_mass_ratio := get planet_data "pl_bmasse" in
    e ← fmt_f 1 earth_mass_ratio;
    Ok (Entry [Txt "This planet has approximately "; e;
               Txt " times the mass of Earth."]
          {[ "earth_mass_ratio" := earth_mass_ratio ]})
  else if truthy (get planet_data "pl_bmassj") then
    let jupiter_mass_ratio := get planet_data "pl_bmassj" in
    j ← as_num jupiter_mass_ratio;
    let earth_mass_ratio := j * 317.8 in
    Ok (Entry [Txt "This planet has approximately ";
               Fixed 1 earth_mass_ratio;
               Txt " times the mass of Earth (or "; Fixed 2 j;
               Txt " Jupiter masses)."]
          {[ "earth_mass_ratio" := VNum earth_mass_ratio;
             "jupiter_mass_ratio" := jupiter_mass_ratio ]})
  else if truthy (get planet_data "pl_msinie")
          || truthy (get planet_data "pl_msinij") then
    if truthy (get planet_data "pl_msinie") then
      let earth_mass_ratio := get planet_data "pl_msinie" in
      e ← fmt_f 1 earth_mass_ratio;
      Ok (Entry [Txt "This planet has a minimum mass of approximately "; e;
                 Txt " times the mass of Earth."]
            {[ "earth_mass_ratio" := earth_mass_ratio; "note" := note ]})
    else
      let jupiter_mass_ratio := get planet_data "pl_msinij" in
      j ← as_num jupiter_mass_ratio;
      let earth_mass_ratio := j * 317.8 in
      Ok (Entry [Txt "This planet has a minimum mass of approximately ";
                 Fixed 1 earth_mass_ratio;
                 Txt " times the mass of Earth (or "; Fixed 2 j;
                 Txt " Jupiter masses)."]
            {[ "earth_mass_ratio" := VNum earth_mass_ratio;
               "jupiter_mass_ratio" := jupiter_mass_ratio;
               "note" := note ]})
  else
    Ok (Entry
          [Txt "Insufficient data to determine the planet's mass relative to Earth."]
          {[ "earth_mass_ratio" := VNone ]}).

(** "Calculate and include surface gravity if possible" *)
Definition explain_gravity : result entry :=
  gravity ←
    calculate_surface_gravity (Some planet_data) (Some planet_data);
  if truthy gravity then
    g ← fmt_f 1 gravity;
    Ok (Entry
          [Txt "The surface gravity on this planet would be approximately ";
           g; Txt " times that of Earth."]
          {[ "earth_gravity_ratio" := gravity ]})
  else
    Ok (Entry
          [Txt "Insufficient data to determine the planet's surface gravity."]
          {[ "earth_gravity_ratio" := VNone ]}).

(** "Determine how long a year is" *)
Definition explain_year_length : result entry :=
  if truthy (get planet_data "pl_orbper") then
    let orbital_period := get planet_data "pl_orbper" in
    p ← as_num orbital_period;
    let year_comparison :=
      if decide (p < 1) then
        let hours := p * 24 in
        [Txt "A year on this planet lasts approximately "; Fixed 1 hours;
         Txt " hours, which is much shorter than Earth's year."]
      else if decide (p < 10) then
        [Txt "A year on this planet lasts approximately "; Fixed 1 p;
         Txt " days, which is much shorter than Earth's year."]
      else
        [Txt "A year on this planet lasts approximately "; Fixed 1 p;
         Txt " days (Earth's year is 365.25 days)."] in
    Ok (Entry year_comparison {[ "orbital_period_days" := orbital_period ]})
  else
    Ok (Entry
          [Txt "Insufficient data to determine how long a year is on this planet."]
          {[ "orbital_period_days" := VNone ]}).

(** The temperature ladder used when the spectral type gives no label. *)
Definition star_type_from_temp (star_temp : value) : result string :=
  first_branch
    [ (gt_num star_temp 30000, "extremely hot O-type star");
      (gt_num star_temp 10000, "very hot B-type star");
      (gt_num star_temp 7500, "hot A-type star");
      (gt_num star_temp 6000, "F-type star (hotter than our Sun)");
      (gt_num star_temp 5200, "G-type star (similar to our Sun)");
      (gt_num star_temp 3700, "K-type orange dwarf star");
      (gt_num star_temp 2400, "M-type red dwarf star") ]%string
    "very cool brown dwarf".

(** "Determine star type and characteristics" *)
Definition explain_star_type : result entry :=
  let star_temp := get planet_data "st_teff" in
  let star_spectype := get planet_data "st_spectype" in
  from_spectype ← get_star_type_from_spectype star_spectype;
  star_type ←
    (if negb (label_truthy from_spectype) && truthy star_temp
     then st ← star_type_from_temp star_temp; Ok (Some st)
     else Ok from_spectype);
  let st := default ""%string star_type in
  if label_truthy star_type && truthy star_temp then
    Ok (Entry [Txt "This planet orbits a "; Txt st;
               Txt " with a temperature of "; Shown star_temp;
               Txt " K (our Sun is about 5778 K)."]
          {[ "star_temperature" := star_temp; "star_type" := VStr st ]})
  else if label_truthy star_type then
    Ok (Entry [Txt "This planet orbits a "; Txt st; Txt "."]
          {[ "star_temperature" := VNone; "star_type" := VStr st ]})
  else if truthy star_temp then
    Ok (Entry [Txt "This planet orbits a star with a temperature of ";
               Shown star_temp; Txt " K (our Sun is about 5778 K)."]
          {[ "star_temperature" := star_temp;
             "star_type" := VStr "Unknown" ]})
  else
    Ok (Entry
          [Txt "Insufficient data to determine the type of star this planet orbits."]
          {[ "star_temperature" := VNone; "star_type" := VStr "Unknown" ]}).

(** [analyze_exoplanet(planet_data)] *)
Definition analyze_exoplanet : result explanation :=
  star_luminosity ← resolve_star_luminosity;
  distance ← explain_distance;
  habitability ← explain_habitability star_luminosity;
  planet_type ← explain_planet_type;
  size ← explain_size;
  mass ← explain_mass;
  gravity ← explain_gravity;
  year_length ← explain_year_length;
  star_type ← explain_star_type;
  Ok {| planet_name :=
          get_default planet_data "pl_name" (VStr "Unnamed planet");
        host_star := get_default planet_data "hostname" (VStr "Unknown star");
        discovery_method :=
          get_default planet_data "discoverymethod" (VStr "Unknown method");
        discovery_year :=
          get_default planet_data "disc_year" (VStr "Unknown year");
        layman_explanation :=
          {[ "distance" := distance; "habitability" := habitability;
             "planet_type" := planet_type; "size" := size; "mass" := mass;
             "gravity" := gravity; "year_length" := year_length;
             "star_type" := star_type ]} |}.
End Analyze.

(** ** [process_exoplanet_data]

    File access is left out: the function is given what [json.load]
    returned, and what it writes and returns is its result.  The lines it
    prints are kept as a list of diagnostics. *)

Inductive diagnostic : Type :=
| SkippedDuplicate (planet_name : value)
| ProcessedPlanet (planet_name : value)
| ErrorProcessing (planet_name : value) (e : exn).

(** The state of the loop over the planets. *)
Record batch : Type := Batch {
  results : list explanation;
  processed_planets : listset value;
  printed : list diagnostic
}.

(** One iteration of [for planet in data]. *)
Definition process_planet (st : batch) (planet : record) : batch :=
  let planet_name := get planet "pl_name" in
  if decide (planet_name ∈ processed_planets st) then
    Batch (results st) (processed_planets st)
      (printed st ++ [SkippedDuplicate planet_name])
  else
    match analyze_exoplanet planet with
    | Ok planet_result =>
        Batch (results st ++ [planet_result])
          ({[ planet_name ]} ∪ processed_planets st)
          (printed st ++ [ProcessedPlanet planet_name])
    | Raise e =>
        Batch (results st) (processed_planets st)
          (printed st ++ [ErrorProcessing planet_name e])
    end.

(** The loop, from a given state. *)
Definition process_planets (st : batch) (data : list record) : batch :=
  foldl process_planet st data.

(** What [json.load] can hand over: a list of records or a single one. *)
Inductive loaded : Type :=
| LoadedList (data : list record)
| LoadedDict (data : record).

(** What is dumped to the output file and returned. *)
Inductive dumped : Type :=
| DumpedList (results : list explanation)
| DumpedDict (results : explanation).

(** [process_exoplanet_data]: [None] when the loaded data is empty. *)
Definition process_exoplanet_data (data : loaded)
  : option (dumped * list diagnostic) :=
  match data with
  | LoadedList [] => None
  | LoadedList l =>
      let st := process_planets (Batch [] ∅ []) l in
      Some (DumpedList (results st), printed st)
  | LoadedDict d =>
      if decide (d = ∅) then None
      else
        match analyze_exoplanet d with
        | Ok r =>
            Some (DumpedDict r,
                  [ProcessedPlanet (get_default d "pl_name" (VStr "Unnamed"))])
        | Raise e =>
            Some (DumpedList [],
                  [ErrorProcessing (get_default d "pl_name" (VStr "Unnamed")) e])
        end
  end.

(** ** Definitions used to state the properties *)

(** The two denominators of the habitable-zone formula. *)
Definition inner_denominator (T : R) : R :=
  1.0 + 2.7619e-5 * (T - 5700) - 3.8095e-9 * (T - 5700) ^ 2.

Definition outer_denominator (T : R) : R :=
  1.0 + 1.3786e-4 * (T - 5700) - 1.4286e-9 * (T - 5700) ^ 2.

(** The FieldResolver as the specification words it (section 4.1), for
    comparison with the extraction blocks of the code: the first field of
    a priority list that holds a number, converted by its factor; a field
    that is missing, null or not a number is passed over. *)
Fixpoint field_resolver (priority : list (string * R)) (r : record)
  : option R :=
  match priority with
  | [] => None
  | (field, factor) :: rest =>
      match get r field with
      | VNum x => Some (x * factor)
      | _ => field_resolver rest r
      end
  end.

(** The specification's priority orders for mass and radius. *)
Definition spec_mass_priority : list (string * R) :=
  [ ("pl_bmasse", 1); ("pl_bmassj", 317.8);
    ("pl_msinie", 1); ("pl_msinij", 317.8) ]%string.

Definition spec_radius_priority : list (string * R) :=
  [ ("pl_rade", 1); ("pl_radj", 11.2) ]%string.

(** The both-known decision table as the specification words it
    (section 4.5), on two numbers. *)
Definition both_known_table (mass radius : R) : string :=
  if decide (mass < 0.1) then "Sub-Earth/Mercury-like"
  else if decide (mass < 2 /\ radius < 1.5) then "Earth-like terrestrial planet"
  else if decide (mass < 10 /\ radius < 2.5) then "Super-Earth"
  else if decide (mass < 50 /\ radius < 6) then "Mini-Neptune/Gas Dwarf"
  else if decide (mass < 500) then "Neptune-like gas giant"
  else "Jupiter-like gas giant".

(** The verdict of [is_planet_habitable] on a planet in the zone whose
    mass or size is not suitable. *)
Definition unsuitable : string :=
  "In habitable zone but may not have right mass/size for habitability".


(** [v] is [None] or a number. *)
Definition not_a_string (v : value) : Prop :=
  match v with VStr _ => False | _ => True end.

(** The name under which a record is deduplicated. *)
Definition dedup_name (planet : record) : value := get planet "pl_name".

(** "Only the first occurrence in input order": what remains of a list of
    records when every record that repeats the name of an earlier one is
    dropped. *)
Fixpoint first_occurrences (data : list record) : list record :=
  match data with
  | [] => []
  | planet :: rest =>
      planet ::
      filter (λ later, dedup_name later <> dedup_name planet)
        (first_occurrences rest)
  end.

(** The records whose analysis returns. *)
Definition analyzable (planet : record) : Prop :=
  is_ok (analyze_exoplanet planet) = true.

#[global] Instance analyzable_dec planet : Decision (analyzable planet).
Proof. unfold analyzable. apply _. Defined.

(** What one iteration prints. *)
Definition diagnosis (st : batch) (planet : record) : diagnostic :=
  if decide (dedup_name planet ∈ processed_planets st)
  then SkippedDuplicate (dedup_name planet)
  else match analyze_exoplanet planet with
       | Ok _ => ProcessedPlanet (dedup_name planet)
       | Raise e => ErrorProcessing (dedup_name planet) e
       end.

(** ** Sample records *)

(** Earth's mass and radius. *)
Definition earth_twin : record :=
  {[ "pl_bmasse" := VNum 1; "pl_rade" := VNum 1 ]}.

(** A mass of one in both the Earth and the Jupiter field. *)
Definition both_masses : record :=
  {[ "pl_bmasse" := VNum 1; "pl_bmassj" := VNum 1 ]}.

(** A radial-velocity planet: only a minimum mass, and a radius. *)
Definition msini_only : record :=
  {[ "pl_msinie" := VNum 5; "pl_rade" := VNum 1 ]}.

(** Scenario B: temperature 5700 K, one solar radius, no luminosity. *)
Definition scenario_b : record :=
  {[ "st_teff" := VNum 5700; "st_rad" := VNum 1 ]}.

(** A planet at 1 AU of a star of solar luminosity at 5700 K. *)
Definition temperate : record :=
  {[ "st_lum" := VNum 1; "st_teff" := VNum 5700; "pl_orbsmax" := VNum 1;
     "pl_bmasse" := VNum 1; "pl_rade" := VNum 1 ]}.



(** Luminosity, direct distance and mass present and equal to zero. *)
Definition all_zero : record :=
  {[ "st_lum" := VNum 0; "st_teff" := VNum 5700; "pl_orbsmax" := VNum 1;
     "sy_dist" := VNum 0; "pl_bmasse" := VNum 0; "pl_rade" := VNum 1 ]}.

(** Scenario E with a first record that cannot be analysed: its star is
    at 30000 K, where the inner denominator is negative. *)
Definition kepler_hot : record :=
  {[ "pl_name" := VStr "Kepler-42 b"; "st_lum" := VNum 1;
     "st_teff" := VNum 30000; "pl_orbsmax" := VNum 1 ]}.

Definition kepler_plain : record :=
  {[ "pl_name" := VStr "Kepler-42 b"; "sy_dist" := VNum 40 ]}.

(** ** Functions around the engine: [app.py], [upload.py], [exocli.py] *)



(** [x or ""] for a cell that is used as a string afterwards. *)
Definition or_empty (x : value) : value :=
  if truthy x then x else VStr "".

(** The test behind "Habitable Zone: Yes" in [display_planet_card],
    [display_planet_summary] and the reports of [exocli.py]:
    ["habitable zone" in (planet.get('assessment') or "")]. *)
Definition in_habitable_zone_flag (assessment : value) : result bool :=
  match or_empty assessment with
  | VStr s => Ok (str_contains "habitable zone" s)
  | _ => Raise TypeError
  end.

(** [insert_data] of [upload.py]: the value stored in the column
    [assessment], [layman.get("habitability", {}).get("assessment")];
    the row that [exocli.py] reads back holds it unchanged. *)
Definition stored_assessment (planet : explanation) : value :=
  default VNone (explained planet "habitability" "assessment").

(** The order of the planet classes, from the lightest to the heaviest;
    the "Possibly" labels of the one-variable tables stand with their
    class. *)
Definition planet_class_rank (label : string) : option nat :=
  if decide (label = "Sub-Earth/Mercury-like"%string) then Some 0%nat
  else if decide (label = "Earth-like terrestrial planet"%string) then Some 1%nat
  else if decide (label = "Possibly Earth-like"%string) then Some 1%nat
  else if decide (label = "Super-Earth"%string) then Some 2%nat
  else if decide (label = "Possibly Super-Earth"%string) then Some 2%nat
  else if decide (label = "Mini-Neptune/Gas Dwarf"%string) then Some 3%nat
  else if decide (label = "Possibly Mini-Neptune"%string) then Some 3%nat
  else if decide (label = "Possibly Mini-Neptune/Gas Dwarf"%string) then Some 3%nat
  else if decide (label = "Neptune-like gas giant"%string) then Some 4%nat
  else if decide (label = "Jupiter-like gas giant"%string) then Some 5%nat
  else None.



(** One label stands for a class at most as heavy as another one. *)
Definition class_le (l1 l2 : string) : Prop :=
  exists n1 n2 : nat,
    planet_class_rank l1 = Some n1 /\ planet_class_rank l2 = Some n2 /\
    (n1 <= n2)%nat.

(** [v] is null or missing, or a number other than zero: the values on
    which "present" and "true in a condition" agree. *)
Definition plain_number (v : value) : Prop :=
  v = VNone \/ exists x, v = VNum x /\ x <> 0.

(** The value a resolved quantity is reported as. *)
Definition reported (q : option R) : value :=
  match q with Some x => VNum x | None => VNone end.

(** The eight sections of an explanation, each with the key under
    which its value is stored (the keys [upload.py] reads). *)
Definition sections : list (string * string) :=
  [ ("distance", "value"); ("habitability", "assessment");
    ("planet_type", "type"); ("size", "earth_radius_ratio");
    ("mass", "earth_mass_ratio"); ("gravity", "earth_gravity_ratio");
    ("year_length", "orbital_period_days"); ("star_type", "star_type")
  ]%string.

(** An entry with a sentence and a value (possibly [None]) under [key]. *)
Definition filled (key : string) (e : entry) : Prop :=
  answer e <> [] /\ is_Some (fields e !! key).

(** The keys of a record that [analyze_exoplanet] reads. *)
Definition consulted_fields : list string :=
  [ "pl_name"; "hostname"; "discoverymethod"; "disc_year";
    "st_rad"; "st_teff"; "st_lum"; "st_spectype";
    "pl_orbsmax"; "sy_plx"; "sy_dist";
    "pl_bmassj"; "pl_bmasse"; "pl_msinij"; "pl_msinie";
    "pl_rade"; "pl_radj"; "pl_orbper" ]%string.

(** The keys of a record that hold its numeric quantities. *)
Definition numeric_fields : list string :=
  [ "st_rad"; "st_teff"; "st_lum"; "pl_orbsmax"; "sy_plx"; "sy_dist";
    "pl_bmassj"; "pl_bmasse"; "pl_msinij"; "pl_msinie";
    "pl_rade"; "pl_radj"; "pl_orbper" ]%string.

(** A numeric field of ordinary size: null, zero, or a number whose
    magnitude lies between 1e-9 and 1e9, where the squares, fourth
    powers and products of the analysis stay far from the overflow and
    underflow of binary64. *)
Definition ordinary (v : value) : Prop :=
  match v with
  | VNone => True
  | VNum x => x = 0 \/ 1e-9 <= Rabs x <= 1e9
  | VStr _ => False
  end.

(** A record that a catalogue can be expected to hold: numeric fields
    of ordinary size, a luminosity that is not negative, a stellar
    temperature between 0 K and 21600 K, radii other than zero, and a
    spectral type that is not a non-empty string of whitespace. *)
Definition well_formed (r : record) : Prop :=
  Forall (λ k, ordinary (get r k)) numeric_fields /\
  (forall L, get r "st_lum" = VNum L -> 0 <= L) /\
  (forall T, get r "st_teff" = VNum T -> 0 <= T <= 21600) /\
  get r "pl_rade" <> VNum 0 /\ get r "pl_radj" <> VNum 0 /\
  (forall s, get r "st_spectype" = VStr s ->
             only_whitespace s = true -> s = ""%string).

(** The diagnostics that report an emitted record. *)
Definition is_processed_line (d : diagnostic) : bool :=
  match d with ProcessedPlanet _ => true | _ => false end.

(** A record without a name: the key is missing or holds [None]. *)
Definition nameless (planet : record) : Prop := get planet "pl_name" = VNone.

(** A record that cannot change the output after [data]: its analysis
    raises, or a record of [data] with its name was analysed. *)
Definition adds_nothing_after (data : list record) (planet : record) : Prop :=
  ~ analyzable planet \/
  Exists (λ earlier, analyzable earlier /\
                     dedup_name earlier = dedup_name planet) data.

(** * Properties *)

(** ** Proof tools *)

(** Decide the comparisons of concrete numbers left in a goal. *)
Ltac rdecide :=
  repeat first
    [ rewrite bool_decide_eq_true_2 by (lra || congruence)
    | rewrite bool_decide_eq_false_2 by (lra || congruence)
    | rewrite decide_True by lra
    | rewrite decide_False by lra ].

(** Read the fields of the sample record [r]. *)
Ltac lookups r :=
  try unfold r; try unfold get_default; try unfold get; simplify_map_eq.

(** A bind that returns went through a first step that returned. *)
Lemma bind_Ok_inv {A B} (c : result A) (f : A -> result B) (b : B) :
  c ≫= f = Ok b -> exists a, c = Ok a /\ f a = Ok b.
Proof. destruct c as [a|e]; [by exists a | discriminate]. Qed.

Lemma py_div_ok x y : y <> 0 -> py_div x y = Ok (x / y).
Proof. intros H. unfold py_div. by rewrite decide_False. Qed.

Lemma py_div_zero x : py_div x 0 = Raise ZeroDivisionError.
Proof. unfold py_div. by rewrite decide_True. Qed.

Lemma math_sqrt_ok x : 0 <= x -> math_sqrt x = Ok (sqrt x).
Proof. intros H. unfold math_sqrt. rewrite decide_False; [done | lra]. Qed.

Lemma lt_num_num x c : lt_num (VNum x) c = Ok (bool_decide (x < c)).
Proof. reflexivity. Qed.


(** ** The habitable zone *)

(** [p * sqrt a < q * sqrt b] follows from the inequality of the squares. *)
Lemma scaled_sqrt_lt (p q a b : R) :
  0 <= p -> 0 <= q -> 0 <= a -> 0 <= b ->
  p ^ 2 * a < q ^ 2 * b -> p * sqrt a < q * sqrt b.
Proof.
  intros Hp Hq Ha Hb Hlt.
  rewrite <- (sqrt_pow2 p), <- (sqrt_pow2 q) by assumption.
  rewrite <- !sqrt_mult by (try apply pow2_ge_0; assumption).
  apply sqrt_lt_1; try assumption.
  all: apply Rmult_le_pos; try assumption; apply pow2_ge_0.
Qed.

(** Where both denominators are positive the function returns the two
    boundaries of the formula. *)
Lemma calculate_habitable_zone_ok (L T : R) :
  0 <= L -> 0 < inner_denominator T -> 0 < outer_denominator T ->
  calculate_habitable_zone L T =
    Ok (0.72 * sqrt (L / inner_denominator T),
        1.77 * sqrt (L / outer_denominator T)).
Proof.
  intros HL Hi Ho. unfold calculate_habitable_zone.
  fold (inner_denominator T). fold (outer_denominator T).
  rewrite (py_div_ok L (inner_denominator T)) by lra. cbn.
  rewrite math_sqrt_ok by (apply Rle_mult_inv_pos; lra). cbn.
  rewrite (py_div_ok L (outer_denominator T)) by lra. cbn.
  rewrite math_sqrt_ok by (apply Rle_mult_inv_pos; lra). reflexivity.
Qed.

(** A negative inner denominator puts a negative number under the root. *)
Lemma calculate_habitable_zone_domain_error (L T : R) :
  0 < L -> inner_denominator T < 0 ->
  calculate_habitable_zone L T = Raise ValueError.
Proof.
  intros HL Hi. unfold calculate_habitable_zone.
  fold (inner_denominator T). fold (outer_denominator T).
  rewrite (py_div_ok L (inner_denominator T)) by lra.
  change (Ok (L / inner_denominator T) ≫= ?f) with (f (L / inner_denominator T)).
  unfold math_sqrt. rewrite decide_True; [reflexivity|].
  assert (H := Rinv_lt_0_compat _ Hi). unfold Rdiv. nra.
Qed.

(** Up to 21600 K both denominators are positive and the squared inner
    coefficient scaled by the outer denominator stays below the squared
    outer coefficient scaled by the inner one. *)
Lemma denominators_in_range (T : R) :
  0 <= T <= 21600 ->
  0 < inner_denominator T /\ 0 < outer_denominator T /\
  0.72 ^ 2 * outer_denominator T < 1.77 ^ 2 * inner_denominator T.
Proof.
  intros [H0 H1]. unfold inner_denominator, outer_denominator.
  assert (H : 0 <= T * (21600 - T)) by nra.
  repeat split; nra.
Qed.

(** C4, as the code has it: for every luminosity [L > 0] and every
    temperature [T] between 0 K and 21600 K, [calculate_habitable_zone]
    returns boundaries with the inner one strictly below the outer one. *)
Theorem inner_boundary_below_outer (L T : R) :
  0 < L -> 0 <= T <= 21600 ->
  exists ri ro, calculate_habitable_zone L T = Ok (ri, ro) /\ ri < ro.
Proof.
  intros HL HT. destruct (denominators_in_range T HT) as (Hi & Ho & Hc).
  rewrite calculate_habitable_zone_ok by lra.
  do 2 eexists; split; [reflexivity|].
  apply scaled_sqrt_lt; try lra.
  1,2: apply Rle_mult_inv_pos; lra.
  unfold Rdiv.
  apply (Rmult_lt_reg_r (inner_denominator T * outer_denominator T)); [nra|].
  replace (0.72 ^ 2 * (L * / inner_denominator T)
           * (inner_denominator T * outer_denominator T))
    with (L * (0.72 ^ 2 * outer_denominator T)) by (field; lra).
  replace (1.77 ^ 2 * (L * / outer_denominator T)
           * (inner_denominator T * outer_denominator T))
    with (L * (1.77 ^ 2 * inner_denominator T)) by (field; lra).
  nra.
Qed.

Lemma inner_boundary_below_outer_witness :
  exists ri ro, calculate_habitable_zone 1 5778 = Ok (ri, ro) /\ ri < ro.
Proof. apply (inner_boundary_below_outer 1 5778); lra. Defined.

(** C4, as stated, fails: for a B-type star at 25700 K and [L = 1] the
    function returns an inner boundary above the outer one. *)
Lemma hot_star_inverts_zone :
  exists ri ro, calculate_habitable_zone 1 25700 = Ok (ri, ro) /\ ro < ri.
Proof.
  assert (Hi : inner_denominator 25700 = 0.02858)
    by (unfold inner_denominator; lra).
  assert (Ho : outer_denominator 25700 = 3.18576)
    by (unfold outer_denominator; lra).
  rewrite calculate_habitable_zone_ok by lra.
  do 2 eexists; split; [reflexivity|]. rewrite Hi, Ho.
  apply scaled_sqrt_lt; lra.
Qed.

(** At 30000 K no boundaries are returned at all. *)
Lemma very_hot_star_raises :
  calculate_habitable_zone 1 30000 = Raise ValueError.
Proof.
  apply calculate_habitable_zone_domain_error; [lra|].
  unfold inner_denominator. lra.
Qed.

(** With the luminosity given as 1 and [T = 5700] the boundaries are the
    solar ones. *)
Lemma solar_boundaries :
  calculate_habitable_zone 1 5700 = Ok (0.72, 1.77).
Proof.
  assert (Hi : inner_denominator 5700 = 1) by (unfold inner_denominator; lra).
  assert (Ho : outer_denominator 5700 = 1) by (unfold outer_denominator; lra).
  rewrite calculate_habitable_zone_ok by lra. rewrite Hi, Ho.
  replace (1 / 1) with 1 by lra. rewrite sqrt_1. do 2 f_equal; lra.
Qed.

(** The luminosity derived from a radius and a temperature. *)
Lemma resolve_star_luminosity_derived (r : record) (rad T : R) :
  get r "st_lum" = VNone -> get r "st_rad" = VNum rad ->
  get r "st_teff" = VNum T -> rad <> 0 -> T <> 0 ->
  resolve_star_luminosity r = Ok (VNum (rad ^ 2 * (T / 5778) ^ 4)).
Proof.
  intros HL HR HT Hrad HT0. unfold resolve_star_luminosity.
  rewrite HL, HR, HT. cbn. rdecide. cbn.
  unfold parse_stellar_luminosity. cbn. rdecide. reflexivity.
Qed.

(** Scenario B on the code: the derived luminosity and the boundaries
    computed from it. *)
Lemma scenario_b_derivation (r : record) :
  get r "st_teff" = VNum 5700 -> get r "st_rad" = VNum 1 ->
  get r "st_lum" = VNone ->
  resolve_star_luminosity r = Ok (VNum (1 ^ 2 * (5700 / 5778) ^ 4)) /\
  calculate_habitable_zone (1 ^ 2 * (5700 / 5778) ^ 4) 5700
  = Ok (0.72 * (5700 / 5778) ^ 2, 1.77 * (5700 / 5778) ^ 2).
Proof.
  intros HT HR HL. split.
  - apply resolve_star_luminosity_derived; try assumption; lra.
  - assert (Hi : inner_denominator 5700 = 1)
      by (unfold inner_denominator; lra).
    assert (Ho : outer_denominator 5700 = 1)
      by (unfold outer_denominator; lra).
    rewrite calculate_habitable_zone_ok by lra. rewrite Hi, Ho.
    replace (1 ^ 2 * (5700 / 5778) ^ 4 / 1) with (((5700 / 5778) ^ 2) ^ 2)
      by field.
    rewrite sqrt_pow2 by lra. reflexivity.
Qed.

(** C5, as the code has it: for a record with [st_teff = 5700],
    [st_rad = 1] and no luminosity, the derived luminosity is
    [(5700/5778)^4] (about 0.947, the Sun being taken at 5778 K) and the
    boundaries are 0.72 and 1.77 times [(5700/5778)^2]: about 0.7007 and
    1.7225 AU. *)
Theorem scenario_b_boundaries (r : record) :
  get r "st_teff" = VNum 5700 -> get r "st_rad" = VNum 1 ->
  get r "st_lum" = VNone ->
  let s := (5700 / 5778) ^ 2 in
  resolve_star_luminosity r = Ok (VNum (1 ^ 2 * (5700 / 5778) ^ 4)) /\
  calculate_habitable_zone (1 ^ 2 * (5700 / 5778) ^ 4) 5700
  = Ok (0.72 * s, 1.77 * s) /\
  0.9470 < 1 ^ 2 * (5700 / 5778) ^ 4 < 0.9471 /\
  0.7006 < 0.72 * s < 0.7007 /\ 1.7225 < 1.77 * s < 1.7226.
Proof.
  intros HT HR HL s.
  destruct (scenario_b_derivation r HT HR HL) as [H1 H2].
  split; [exact H1 | split; [exact H2 | unfold s; lra]].
Qed.

Lemma scenario_b_boundaries_witness :
  exists L ri ro,
    resolve_star_luminosity scenario_b = Ok (VNum L) /\
    calculate_habitable_zone L 5700 = Ok (ri, ro) /\
    0.7006 < ri < 0.7007 /\ 1.7225 < ro < 1.7226.
Proof.
  destruct (scenario_b_boundaries scenario_b) as (HL & Hz & _ & Hi & Ho).
  - lookups scenario_b. reflexivity.
  - lookups scenario_b. reflexivity.
  - lookups scenario_b. reflexivity.
  - do 3 eexists. split; [exact HL | split; [exact Hz | split; assumption]].
Defined.

(** C5, as stated, fails: the luminosity derived for scenario B is not 1
    and the boundaries are not 0.72 and 1.77. *)
Lemma scenario_b_luminosity_below_one :
  exists L ri ro,
    resolve_star_luminosity scenario_b = Ok (VNum L) /\
    calculate_habitable_zone L 5700 = Ok (ri, ro) /\
    L < 1 /\ ri < 0.72 /\ ro < 1.77.
Proof.
  destruct (scenario_b_derivation scenario_b) as [HL Hz].
  - lookups scenario_b. reflexivity.
  - lookups scenario_b. reflexivity.
  - lookups scenario_b. reflexivity.
  - do 3 eexists. repeat apply conj; [exact HL | exact Hz | lra..].
Qed.

(** ** The normalised distance and the in-zone test *)

(** In exact arithmetic, for bounds [ri < ro] the normalised distance
    lies in [-1, 1] exactly when [ri <= d <= ro], which is the in-zone
    test of [is_planet_habitable] (read off a call without mass and
    radius, where the verdict depends on the zone only). *)
Lemma hzd_exact_in_unit_interval_iff_in_zone (d ri ro : R) :
  ri < ro ->
  exists hzd, calculate_hzd d ri ro = Ok hzd /\
    hzd = (d - (ri + ro) / 2) / ((ro - ri) / 2) /\
    (-1 <= hzd <= 1 <-> ri <= d <= ro) /\
    (-1 <= hzd <= 1 <->
     is_planet_habitable d ri ro None None = Ok "Potentially habitable"%string).
Proof.
  intros Hlt. unfold calculate_hzd.
  rewrite py_div_ok by lra. eexists; split; [reflexivity|].
  split; [reflexivity|].
  set (h := (d - (ri + ro) / 2) / ((ro - ri) / 2)).
  assert (Hh : h * (ro - ri) = 2 * d - (ri + ro)).
  { unfold h. field. lra. }
  assert (Hz : -1 <= h <= 1 <-> ri <= d <= ro).
  { split; intros [H1 H2]; split; nra. }
  split; [exact Hz|]. rewrite Hz.
  unfold is_planet_habitable. cbn.
  split.
  - intros [H1 H2]. rdecide. reflexivity.
  - intros H. destruct (decide (ri <= d)), (decide (d <= ro)); [done|..].
    all: revert H; rdecide; cbn; try discriminate.
    all: intros _; lra.
Qed.

(** With equal boundaries the half-width is zero and the division
    raises. *)
Lemma calculate_hzd_degenerate (d ri : R) :
  calculate_hzd d ri ri = Raise ZeroDivisionError.
Proof.
  unfold calculate_hzd. replace ((ri - ri) / 2) with 0 by lra.
  by rewrite py_div_zero.
Qed.

Set Warnings "-inexact-float".

(** C6, on the numbers the program computes with.  For the zone of a
    star like the Sun, [ri = 0.72] and [ro = 1.77], and a planet on the
    inner boundary, [d = 0.72], the in-zone test of [is_planet_habitable]
    holds while [calculate_hzd] returns -1.0000000000000002, which is
    below -1: the normalised distance is outside [-1, 1] for a planet
    in the zone.  The decimal constants stand for the nearest binary64
    values, as they do in Python. *)
Theorem hzd_below_minus_one_on_the_inner_boundary :
  in_habitable_zone_b64 0.72%float 0.72%float 1.77%float = true /\
  calculate_hzd_b64 0.72%float 0.72%float 1.77%float
  = Ok (-0x1.0000000000001p+0)%float /\
  PrimFloat.ltb (-0x1.0000000000001p+0)%float (-1)%float = true.
Proof. repeat apply conj; vm_compute; reflexivity. Qed.

Set Warnings "inexact-float".

(** ** Planet types *)

(** On two numbers [classify_planet] is the both-known table. *)
Lemma classify_planet_both_known (m r : R) :
  classify_planet (VNum m) (VNum r) = Ok (both_known_table m r).
Proof.
  unfold classify_planet, both_known_table, first_branch, and_then.
  rewrite !lt_num_num. cbn.
  repeat (case_bool_decide; cbn);
    repeat (case_decide; try reflexivity; try lra).
Qed.

(** C7: when the extraction blocks of [get_planet_type] resolve a mass
    [m] and a radius [r], the label is the one of the both-known table
    read in order; mass 1 and radius 1 give the Earth-like label. *)
Theorem planet_type_both_known (pm pr : option record) (m r : R) :
  planet_type_earth_mass pm = Ok (VNum m) ->
  extract_earth_radius pr = Ok (VNum r) ->
  get_planet_type pm pr = Ok (both_known_table m r) /\
  both_known_table 1 1 = "Earth-like terrestrial planet"%string.
Proof.
  intros Hm Hr. split.
  - unfold get_planet_type. rewrite Hm, Hr. apply classify_planet_both_known.
  - unfold both_known_table. rewrite decide_False by lra.
    rewrite decide_True by lra. reflexivity.
Qed.

Lemma planet_type_both_known_witness :
  get_planet_type (Some earth_twin) (Some earth_twin)
  = Ok "Earth-like terrestrial planet"%string.
Proof.
  destruct (planet_type_both_known (Some earth_twin) (Some earth_twin) 1 1)
    as [H1 H2].
  - cbn. lookups earth_twin. reflexivity.
  - cbn. lookups earth_twin. reflexivity.
  - rewrite H1, H2. reflexivity.
Defined.

(** ** Which mass field is read *)

(** C2, as stated, fails: with a mass of one in both fields, the three
    derivations work with 317.8 Earth masses, not with 1. *)
Lemma jupiter_field_shadows_earth_field :
  get both_masses "pl_bmasse" = VNum 1 /\
  get both_masses "pl_bmassj" = VNum 1 /\
  planet_type_earth_mass (Some both_masses) = Ok (VNum (1 * 317.8)) /\
  measured_earth_mass (Some both_masses) = Ok (VNum (1 * 317.8)) /\
  habitable_mass_suitable (Some both_masses) = Ok false /\
  get_planet_type (Some both_masses) (Some both_masses)
  = Ok "Neptune-like gas giant"%string /\
  VNum (1 * 317.8) <> VNum 1.
Proof.
  repeat apply conj.
  - lookups both_masses. reflexivity.
  - lookups both_masses. reflexivity.
  - cbn. lookups both_masses. reflexivity.
  - cbn. lookups both_masses. reflexivity.
  - cbn. lookups both_masses. cbn. unfold between_num. cbn. rdecide.
    reflexivity.
  - unfold get_planet_type. cbn. lookups both_masses. cbn.
    unfold lt_num; cbn. rdecide. reflexivity.
  - intros H. injection H. lra.
Qed.

(** C2, as the code has it: when both mass fields hold a number, planet
    type, habitability check and surface gravity work with the Jupiter
    field times 317.8; the Earth field is read when the Jupiter field is
    null or missing. *)
Theorem jupiter_mass_field_has_priority (r : record) (e : R) :
  get r "pl_bmasse" = VNum e ->
  (forall j, get r "pl_bmassj" = VNum j ->
     planet_type_earth_mass (Some r) = Ok (VNum (j * 317.8)) /\
     measured_earth_mass (Some r) = Ok (VNum (j * 317.8)) /\
     habitable_mass_suitable (Some r)
     = Ok (bool_decide (0.1 <= j * 317.8) && bool_decide (j * 317.8 <= 10)))
  /\
  (get r "pl_bmassj" = VNone ->
     planet_type_earth_mass (Some r) = Ok (VNum e) /\
     measured_earth_mass (Some r) = Ok (VNum e) /\
     habitable_mass_suitable (Some r)
     = Ok (bool_decide (0.1 <= e) && bool_decide (e <= 10))).
Proof.
  intros He. split.
  - intros j Hj. cbn. rewrite Hj. cbn. done.
  - intros Hj. cbn. rewrite Hj, He. cbn. done.
Qed.

Lemma jupiter_mass_field_has_priority_witness :
  planet_type_earth_mass (Some both_masses) = Ok (VNum (1 * 317.8)).
Proof.
  destruct (jupiter_mass_field_has_priority both_masses 1) as [HJ _].
  - lookups both_masses. reflexivity.
  - destruct (HJ 1) as [H _]; [|exact H].
    lookups both_masses. reflexivity.
Defined.

(** ** Distance from Earth *)

(** A direct distance in parsecs is preferred to the parallax. *)
Lemma direct_distance_preferred (parallax : value) (pc : R) :
  calculate_earth_distance_light_years parallax (VNum pc)
  = Ok (VNum (pc * 3.26)).
Proof. reflexivity. Qed.

(** Without a direct distance, a non-zero parallax gives
    [(1000 / plx) * 3.26], whatever its sign. *)
Lemma distance_from_parallax (plx : R) :
  plx <> 0 ->
  calculate_earth_distance_light_years (VNum plx) VNone
  = Ok (VNum (1000 / plx * 3.26)).
Proof.
  intros H. unfold calculate_earth_distance_light_years. cbn.
  rewrite bool_decide_eq_true_2 by congruence.
  cbn. rewrite py_div_ok by assumption. reflexivity.
Qed.

(** A null or zero parallax gives no distance. *)
Lemma distance_absent :
  calculate_earth_distance_light_years VNone VNone = Ok VNone /\
  calculate_earth_distance_light_years (VNum 0) VNone = Ok VNone.
Proof.
  split; [reflexivity|]. unfold calculate_earth_distance_light_years. cbn.
  rewrite bool_decide_eq_false_2; [reflexivity | tauto].
Qed.

(** [parallax_to_light_years] of [app.py] does what C3 says on numbers
    and on missing cells. *)
Lemma parallax_to_light_years_spec (plx : R) :
  (0 < plx -> parallax_to_light_years (VNum plx)
              = Ok (VNum (1000 / plx * 3.26))) /\
  (plx <= 0 -> parallax_to_light_years (VNum plx) = Ok VNone) /\
  parallax_to_light_years VNone = Ok VNone.
Proof.
  unfold parallax_to_light_years. cbn. repeat apply conj.
  - intros H. rdecide. cbn. rewrite py_div_ok by lra. reflexivity.
  - intros H. rdecide. reflexivity.
  - reflexivity.
Qed.

(** A string in either field makes both converters raise. *)
Lemma string_parallax_raises (t : string) :
  calculate_earth_distance_light_years (VStr t) VNone = Raise TypeError /\
  calculate_earth_distance_light_years VNone (VStr t) = Raise TypeError /\
  parallax_to_light_years (VStr t) = Raise TypeError.
Proof.
  repeat apply conj; reflexivity.
Qed.

(** C3 on the code: a parallax of -5 mas without a direct distance is
    not rejected by [calculate_earth_distance_light_years], which returns
    -652 light-years, and the distance sentence is built from it; the
    function of [app.py] returns no distance. *)
Theorem negative_parallax_gives_negative_distance :
  calculate_earth_distance_light_years (VNum (-5)) VNone
  = Ok (VNum (1000 / -5 * 3.26)) /\
  1000 / -5 * 3.26 = -652 /\
  explain_distance {[ "sy_plx" := VNum (-5) ]}
  = Ok (Entry [Txt "This planet is approximately ";
               Fixed 1 (1000 / -5 * 3.26);
               Txt " light years away from Earth."]
          {[ "value" := VNum (1000 / -5 * 3.26);
             "unit" := VStr "light years" ]}) /\
  parallax_to_light_years (VNum (-5)) = Ok VNone.
Proof.
  repeat apply conj.
  - apply distance_from_parallax. lra.
  - lra.
  - unfold explain_distance. unfold get. simplify_map_eq.
    rewrite distance_from_parallax by lra. cbn. rdecide. reflexivity.
  - apply parallax_to_light_years_spec. lra.
Qed.

(** ** The blocks of an analysis *)

(** What a returned analysis holds under the keys of three blocks. *)
Lemma analyze_exoplanet_sections (r : record) (res : explanation) :
  analyze_exoplanet r = Ok res ->
  exists lum distance habitability gravity,
    resolve_star_luminosity r = Ok lum /\
    explain_distance r = Ok distance /\
    explain_habitability r lum = Ok habitability /\
    explain_gravity r = Ok gravity /\
    layman_explanation res !! "distance" = Some distance /\
    layman_explanation res !! "habitability" = Some habitability /\
    layman_explanation res !! "gravity" = Some gravity /\
    planet_name res = get_default r "pl_name" (VStr "Unnamed planet").
Proof.
  unfold analyze_exoplanet. intros H.
  apply bind_Ok_inv in H as (lum & Hlum & H).
  apply bind_Ok_inv in H as (distance & Hdistance & H).
  apply bind_Ok_inv in H as (habitability & Hhabitability & H).
  apply bind_Ok_inv in H as (planet_type & _ & H).
  apply bind_Ok_inv in H as (size & _ & H).
  apply bind_Ok_inv in H as (mass & _ & H).
  apply bind_Ok_inv in H as (gravity & Hgravity & H).
  apply bind_Ok_inv in H as (year_length & _ & H).
  apply bind_Ok_inv in H as (star_type & _ & H).
  injection H as <-. exists lum, distance, habitability, gravity.
  repeat apply conj; first [assumption | reflexivity].
Qed.

(** ** Habitability *)

Arguments is_planet_habitable : simpl never.
Arguments calculate_hzd : simpl never.
Arguments calculate_habitable_zone : simpl never.
Arguments py_div : simpl never.
Arguments classify_planet : simpl never.

(** Evaluate [analyze_exoplanet] on the sample record [r]. *)
Ltac run r :=
  unfold analyze_exoplanet, resolve_star_luminosity, explain_distance,
    explain_habitability, explain_planet_type, explain_size, explain_mass,
    explain_gravity, explain_year_length, explain_star_type,
    calculate_earth_distance_light_years, get_planet_type,
    calculate_surface_gravity, measured_earth_mass, planet_type_earth_mass,
    extract_earth_radius, get_star_type_from_spectype,
    parse_stellar_luminosity;
  lookups r;
  repeat (progress
    (cbn; rdecide;
     try rewrite solar_boundaries;
     try rewrite very_hot_star_raises;
     try (unfold calculate_hzd; rewrite py_div_ok by lra);
     try (rewrite py_div_ok by lra);
     try (unfold is_planet_habitable, habitable_mass_suitable,
            habitable_size_suitable; lookups r);
     try (unfold classify_planet, lt_num, gt_num, and_then, between_num,
            star_type_from_temp))).




(** [is_planet_habitable] returns one of its three verdicts. *)
Lemma is_planet_habitable_labels d ri ro pm pr a :
  is_planet_habitable d ri ro pm pr = Ok a ->
  a = "Potentially habitable"%string \/ a = unsuitable \/
  a = "Not in habitable zone"%string.
Proof.
  unfold is_planet_habitable.
  destruct (habitable_mass_suitable pm) as [ms|]; [|done].
  destruct (habitable_size_suitable pr) as [ss|]; [|done]. cbn.
  destruct (_ && _); [destruct (ms && ss)|]; intros [= <-]; auto.
Qed.

(** The verdict as a function of the zone test and the two checks. *)
Lemma is_planet_habitable_table d ri ro pm pr ms ss :
  habitable_mass_suitable pm = Ok ms ->
  habitable_size_suitable pr = Ok ss ->
  exists a, is_planet_habitable d ri ro pm pr = Ok a /\
    (a = "Potentially habitable"%string <->
     ri <= d <= ro /\ ms = true /\ ss = true) /\
    (a = unsuitable <-> ri <= d <= ro /\ ~ (ms = true /\ ss = true)) /\
    (a = "Not in habitable zone"%string <-> ~ ri <= d <= ro).
Proof.
  intros Hm Hs. unfold is_planet_habitable. rewrite Hm, Hs. cbn.
  destruct (decide (ri <= d)); destruct (decide (d <= ro)); rdecide; cbn.
  2-4: eexists; split; [reflexivity|];
       repeat split; try discriminate; try tauto; intros; lra.
  destruct ms, ss; cbn; eexists; (split; [reflexivity|]).
  all: repeat split; try discriminate; try tauto; try lra.
  all: try (intros (_ & H1 & H2); discriminate).
  all: intros [_ H]; tauto.
Qed.

(** The position sentence never fails on a number. *)
Lemma position_defined (hzd : R) :
  exists p : string,
    (if decide (hzd < -1) then Ok "too close to its star (too hot)"
     else if decide (hzd > 1) then Ok "too far from its star (too cold)"
     else if decide (-1 <= hzd <= 1) then Ok "within the habitable zone"
     else Raise UnboundLocalError)%string = Ok p.
Proof.
  repeat case_decide; eauto. exfalso. lra.
Qed.






(** ** Surface gravity *)

(** C8, as stated, fails: a planet with a minimum mass of 5 and a radius
    of 1, both resolved by the specification's resolver, gets no gravity
    and the "insufficient data" sentence. *)
Lemma minimum_mass_gives_no_gravity :
  field_resolver spec_mass_priority msini_only = Some (5 * 1) /\
  field_resolver spec_radius_priority msini_only = Some (1 * 1) /\
  calculate_surface_gravity (Some msini_only) (Some msini_only) = Ok VNone /\
  explain_gravity msini_only
  = Ok (Entry
          [Txt "Insufficient data to determine the planet's surface gravity."]
          {[ "earth_gravity_ratio" := VNone ]}).
Proof.
  repeat apply conj.
  - cbn. lookups msini_only. reflexivity.
  - cbn. lookups msini_only. reflexivity.
  - unfold calculate_surface_gravity. cbn. lookups msini_only. reflexivity.
  - unfold explain_gravity, calculate_surface_gravity. cbn.
    lookups msini_only. reflexivity.
Qed.

(** The minimum-mass fields are not read by [calculate_surface_gravity]. *)
Lemma gravity_ignores_minimum_mass (r : record) (e j : value) :
  calculate_surface_gravity
    (Some (<["pl_msinie" := e]> (<["pl_msinij" := j]> r)))
    (Some (<["pl_msinie" := e]> (<["pl_msinij" := j]> r)))
  = calculate_surface_gravity (Some r) (Some r).
Proof.
  unfold calculate_surface_gravity, measured_earth_mass, extract_earth_radius,
    get.
  by rewrite !lookup_insert_ne by done.
Qed.

(** A radius of zero makes the division raise. *)
Lemma zero_radius_raises (r : record) (m : R) :
  measured_earth_mass (Some r) = Ok (VNum m) ->
  extract_earth_radius (Some r) = Ok (VNum 0) ->
  calculate_surface_gravity (Some r) (Some r) = Raise ZeroDivisionError.
Proof.
  intros Hm Hr. unfold calculate_surface_gravity. rewrite Hm, Hr. cbn.
  replace (0 * (0 * 1)) with 0 by lra. by rewrite py_div_zero.
Qed.

(** C8, as the code has it: with the measured mass [m] ([pl_bmassj]
    times 317.8, else [pl_bmasse]) and the radius [x] ([pl_rade], else
    [pl_radj] times 11.2) both resolved and [x] not zero, the gravity is
    [m / x^2]; it is absent when either is absent; the minimum-mass
    fields play no part; mass 1 and radius 1 give 1. *)
Theorem surface_gravity_of_measured_mass (r : record) (mass radius : value) :
  measured_earth_mass (Some r) = Ok mass ->
  extract_earth_radius (Some r) = Ok radius ->
  (forall m x, mass = VNum m -> radius = VNum x -> x <> 0 ->
     calculate_surface_gravity (Some r) (Some r) = Ok (VNum (m / x ^ 2))) /\
  (mass = VNone \/ radius = VNone ->
     calculate_surface_gravity (Some r) (Some r) = Ok VNone) /\
  (mass = VNum 1 -> radius = VNum 1 ->
     calculate_surface_gravity (Some r) (Some r) = Ok (VNum 1)) /\
  (forall e j,
     calculate_surface_gravity
       (Some (<["pl_msinie" := e]> (<["pl_msinij" := j]> r)))
       (Some (<["pl_msinie" := e]> (<["pl_msinij" := j]> r)))
     = calculate_surface_gravity (Some r) (Some r)).
Proof.
  intros Hm Hr. unfold calculate_surface_gravity at 1 2 3.
  rewrite Hm, Hr. cbn. repeat apply conj.
  - intros m x -> -> Hx. cbn. rewrite py_div_ok; [reflexivity|].
    intros [H0|H0]%Rmult_integral; lra.
  - intros [-> | ->]; [reflexivity|]. by rewrite orb_true_r.
  - intros -> ->. cbn. rewrite py_div_ok by lra. cbn. do 2 f_equal. lra.
  - apply gravity_ignores_minimum_mass.
Qed.

Lemma surface_gravity_of_measured_mass_witness :
  calculate_surface_gravity (Some earth_twin) (Some earth_twin)
  = Ok (VNum 1).
Proof.
  destruct (surface_gravity_of_measured_mass earth_twin (VNum 1) (VNum 1))
    as (_ & _ & H & _).
  - cbn. lookups earth_twin. reflexivity.
  - cbn. lookups earth_twin. reflexivity.
  - apply H; reflexivity.
Defined.

(** ** Zero values *)

(** C10: a luminosity present and equal to 0 gives the "Unknown"
    habitability entry, a computed distance of 0 light-years gives the
    "insufficient data" distance entry and a computed gravity of 0 gives
    the "insufficient data" gravity entry; these are the entries of the
    dictionary that [analyze_exoplanet] returns, whenever it returns. *)
Theorem zero_is_handled_as_missing (r : record) :
  let unknown_habitability :=
    Entry [Txt "Insufficient data to determine habitability."]
      {[ "habitable_zone_distance" := VNone;
         "assessment" := VStr "Unknown" ]} in
  let insufficient_distance :=
    Entry [Txt "Insufficient data to determine distance from Earth."]
      {[ "value" := VNone; "unit" := VStr "light years" ]} in
  let insufficient_gravity :=
    Entry [Txt "Insufficient data to determine the planet's surface gravity."]
      {[ "earth_gravity_ratio" := VNone ]} in
  (get r "st_lum" = VNum 0 ->
   resolve_star_luminosity r = Ok (VNum 0) /\
   explain_habitability r (VNum 0) = Ok unknown_habitability /\
   forall res, analyze_exoplanet r = Ok res ->
     layman_explanation res !! "habitability" = Some unknown_habitability /\
     explained res "habitability" "assessment" = Some (VStr "Unknown")) /\
  (calculate_earth_distance_light_years (get r "sy_plx") (get r "sy_dist")
   = Ok (VNum 0) ->
   explain_distance r = Ok insufficient_distance /\
   forall res, analyze_exoplanet r = Ok res ->
     layman_explanation res !! "distance" = Some insufficient_distance) /\
  (calculate_surface_gravity (Some r) (Some r) = Ok (VNum 0) ->
   explain_gravity r = Ok insufficient_gravity /\
   forall res, analyze_exoplanet r = Ok res ->
     layman_explanation res !! "gravity" = Some insufficient_gravity).
Proof.
  intros unknown_habitability insufficient_distance insufficient_gravity.
  repeat apply conj.
  - intros H0.
    assert (Hlum : resolve_star_luminosity r = Ok (VNum 0)).
    { unfold resolve_star_luminosity. rewrite H0. reflexivity. }
    assert (Hhab : explain_habitability r (VNum 0) = Ok unknown_habitability).
    { unfold explain_habitability. cbn.
      rewrite bool_decide_eq_false_2 by tauto. reflexivity. }
    split; [exact Hlum | split; [exact Hhab|]].
    intros res Hres.
    destruct (analyze_exoplanet_sections r res Hres)
      as (lum & dist & hab & grav & Hlum' & _ & Hhab' & _ & _ & Hh & _).
    rewrite Hlum in Hlum'. injection Hlum' as <-.
    rewrite Hhab in Hhab'. injection Hhab' as <-.
    split; [exact Hh|]. unfold explained. rewrite Hh. reflexivity.
  - intros H0.
    assert (Hdist : explain_distance r = Ok insufficient_distance).
    { unfold explain_distance. rewrite H0. cbn.
      rewrite bool_decide_eq_false_2 by tauto. reflexivity. }
    split; [exact Hdist|]. intros res Hres.
    destruct (analyze_exoplanet_sections r res Hres)
      as (lum & dist & hab & grav & _ & Hdist' & _ & _ & Hd & _).
    rewrite Hdist in Hdist'. injection Hdist' as <-. exact Hd.
  - intros H0.
    assert (Hgrav : explain_gravity r = Ok insufficient_gravity).
    { unfold explain_gravity. rewrite H0. cbn.
      rewrite bool_decide_eq_false_2 by tauto. reflexivity. }
    split; [exact Hgrav|]. intros res Hres.
    destruct (analyze_exoplanet_sections r res Hres)
      as (lum & dist & hab & grav & _ & _ & _ & Hgrav' & _ & _ & Hg & _).
    rewrite Hgrav in Hgrav'. injection Hgrav' as <-. exact Hg.
Qed.

(** The sample record with three zeros is analysed. *)
Lemma all_zero_analyzed : exists res, analyze_exoplanet all_zero = Ok res.
Proof. run all_zero. eexists. reflexivity. Defined.

Lemma zero_is_handled_as_missing_witness :
  exists res,
    analyze_exoplanet all_zero = Ok res /\
    explained res "habitability" "assessment" = Some (VStr "Unknown") /\
    explained res "distance" "value" = Some VNone /\
    explained res "gravity" "earth_gravity_ratio" = Some VNone.
Proof.
  destruct all_zero_analyzed as [res Hres]. exists res.
  destruct (zero_is_handled_as_missing all_zero) as (H1 & H2 & H3).
  split; [exact Hres|]. repeat apply conj.
  - destruct H1 as (_ & _ & H1); [lookups all_zero; reflexivity|].
    apply (H1 res Hres).
  - destruct H2 as [_ H2].
    + lookups all_zero. unfold calculate_earth_distance_light_years. cbn.
      do 2 f_equal. lra.
    + unfold explained. rewrite (H2 res Hres). reflexivity.
  - destruct H3 as [_ H3].
    + unfold calculate_surface_gravity. cbn. lookups all_zero. cbn.
      rewrite py_div_ok by lra. cbn. do 2 f_equal. lra.
    + unfold explained. rewrite (H3 res Hres). reflexivity.
Defined.

(** ** Deduplication by planet name *)

Lemma process_planets_cons st planet rest :
  process_planets st (planet :: rest)
  = process_planets (process_planet st planet) rest.
Proof. reflexivity. Qed.

Lemma process_planets_app st l1 l2 :
  process_planets st (l1 ++ l2) = process_planets (process_planets st l1) l2.
Proof. apply foldl_app. Qed.

(** Filtering on the name commutes with keeping first occurrences. *)
Lemma first_occurrences_filter (Q : value -> Prop) `{!∀ v, Decision (Q v)}
    (l : list record) :
  filter (λ r, Q (dedup_name r)) (first_occurrences l)
  = first_occurrences (filter (λ r, Q (dedup_name r)) l).
Proof.
  induction l as [|r l IH]; [done|]. cbn [first_occurrences].
  destruct (decide (Q (dedup_name r))) as [HQ|HQ].
  - rewrite !filter_cons_True by done. cbn [first_occurrences]. f_equal.
    rewrite <- IH. rewrite !list_filter_filter.
    apply list_filter_iff. tauto.
  - rewrite !filter_cons_False by done. rewrite <- IH.
    rewrite list_filter_filter. apply list_filter_iff.
    intros x. split; [tauto|]. intros HQx. split; [done|]. congruence.
Qed.

Lemma first_occurrences_NoDup (l : list record) :
  NoDup (dedup_name <$> first_occurrences l).
Proof.
  induction l as [|r l IH]; [constructor|]. cbn [first_occurrences].
  rewrite fmap_cons. apply NoDup_cons. split.
  - intros (x & Hx & Hin)%list_elem_of_fmap.
    apply list_elem_of_filter in Hin as [Hne _]. congruence.
  - eapply sublist_NoDup; [exact IH|].
    apply fmap_sublist, sublist_filter.
Qed.

(** A record is kept exactly when no record before it bears its name. *)
Lemma first_occurrences_spec (l : list record) (r : record) :
  r ∈ first_occurrences l <->
  exists pre post, l = pre ++ r :: post /\
                   Forall (λ x, dedup_name x <> dedup_name r) pre.
Proof.
  induction l as [|x l IH]; cbn [first_occurrences].
  - split; [by intros ?%elem_of_nil|].
    intros (pre & post & H & _). by destruct pre.
  - rewrite elem_of_cons, list_elem_of_filter, IH. split.
    + intros [->|(Hne & pre & post & -> & Hpre)].
      * by exists [], l.
      * exists (x :: pre), post. split; [done|].
        constructor; [congruence | done].
    + intros (pre & post & Heq & Hpre).
      destruct pre as [|y pre]; simplify_eq/=; [by left|].
      right. apply Forall_cons in Hpre as [Hy Hpre].
      split; [congruence|]. by exists pre, post.
Qed.

(** The loop appends to [results] the analyses of the first occurrences
    among the records that can be analysed and whose name is not yet in
    [processed_planets]. *)
Lemma process_planets_results (data : list record) (st : batch) :
  exists new,
    results (process_planets st data) = results st ++ new /\
    Forall2 (λ planet res, analyze_exoplanet planet = Ok res)
      (first_occurrences
         (filter (λ r, analyzable r /\ dedup_name r ∉ processed_planets st)
            data))
      new.
Proof.
  revert st. induction data as [|r data IH]; intros st.
  - exists []. split; [by rewrite app_nil_r | constructor].
  - rewrite process_planets_cons. unfold process_planet.
    fold (dedup_name r).
    destruct (decide (dedup_name r ∈ processed_planets st)) as [Hin|Hin].
    + rewrite filter_cons_False by tauto. apply (IH (Batch _ _ _)).
    + destruct (analyze_exoplanet r) as [res|e] eqn:Hr.
      * destruct (IH (Batch (results st ++ [res])
                        ({[dedup_name r]} ∪ processed_planets st)
                        (printed st ++ [ProcessedPlanet (dedup_name r)])))
          as (new & Hnew & Hall).
        cbn [results processed_planets] in Hnew, Hall.
        exists (res :: new). split; [by rewrite Hnew, <- app_assoc|].
        rewrite filter_cons_True
          by (split; [unfold analyzable; by rewrite Hr | done]).
        cbn [first_occurrences]. constructor; [done|].
        pose proof (first_occurrences_filter (λ n, n <> dedup_name r)) as Hf.
        cbn beta in Hf. rewrite Hf, list_filter_filter.
        erewrite list_filter_iff; [exact Hall|].
        intros x. cbn. rewrite not_elem_of_union, elem_of_singleton. tauto.
      * rewrite filter_cons_False
          by (unfold analyzable; rewrite Hr; cbn; intros [? _]; done).
        apply (IH (Batch _ _ _)).
Qed.

(** The names in [processed_planets] after the loop: those that were
    there, and those of the records of [data] that can be analysed. *)
Lemma process_planets_seen (data : list record) (st : batch) (n : value) :
  n ∈ processed_planets (process_planets st data) <->
  n ∈ processed_planets st \/
  Exists (λ r, analyzable r /\ dedup_name r = n) data.
Proof.
  revert st. induction data as [|r data IH]; intros st.
  - cbn. rewrite Exists_nil. tauto.
  - rewrite process_planets_cons, IH, Exists_cons. unfold process_planet.
    fold (dedup_name r). unfold analyzable at 2.
    destruct (decide (dedup_name r ∈ processed_planets st)) as [Hin|Hin];
      cbn [processed_planets].
    + split; [tauto|]. intros [H|[[_ <-]|H]]; tauto.
    + destruct (analyze_exoplanet r) as [res|e]; cbn [processed_planets is_ok].
      * rewrite elem_of_union, elem_of_singleton. intuition congruence.
      * intuition congruence.
Qed.

Lemma process_planet_printed (st : batch) (planet : record) :
  printed (process_planet st planet) = printed st ++ [diagnosis st planet].
Proof.
  unfold process_planet, diagnosis. fold (dedup_name planet).
  destruct (decide _); [reflexivity|].
  destruct (analyze_exoplanet planet); reflexivity.
Qed.

Lemma process_planets_printed (data : list record) (st : batch) :
  exists new, printed (process_planets st data) = printed st ++ new /\
              length new = length data.
Proof.
  revert st. induction data as [|r data IH]; intros st.
  - exists []. by rewrite app_nil_r.
  - rewrite process_planets_cons.
    destruct (IH (process_planet st r)) as (new & Hnew & Hlen).
    rewrite process_planet_printed in Hnew.
    exists (diagnosis st r :: new). rewrite Hnew, <- app_assoc. cbn.
    by rewrite Hlen.
Qed.

(** The diagnostic printed for the record that follows [pre]. *)
Lemma process_planets_diagnostic (pre post : list record) (planet : record) :
  printed (process_planets (Batch [] ∅ []) (pre ++ planet :: post))
    !! length pre
  = Some (diagnosis (process_planets (Batch [] ∅ []) pre) planet).
Proof.
  rewrite process_planets_app, process_planets_cons.
  destruct (process_planets_printed pre (Batch [] ∅ [])) as (l1 & H1 & Hl1).
  destruct (process_planets_printed post
              (process_planet (process_planets (Batch [] ∅ []) pre) planet))
    as (l2 & H2 & _).
  rewrite H2, process_planet_printed, H1. cbn [printed app].
  rewrite <- app_assoc. cbn. rewrite <- Hl1. apply list_lookup_middle. done.
Qed.

Lemma analyze_exoplanet_planet_name (r : record) (res : explanation) :
  analyze_exoplanet r = Ok res ->
  planet_name res = get_default r "pl_name" (VStr "Unnamed planet").
Proof.
  intros Hres.
  destruct (analyze_exoplanet_sections r res Hres)
    as (lum & d & h & g & _ & _ & _ & _ & _ & _ & _ & Hname).
  exact Hname.
Qed.

(** The names in the output are the names of the records kept, when
    every record has the key [pl_name]. *)
Lemma output_names (kept : list record) (out : list explanation) :
  Forall (λ planet : record, is_Some (planet !! "pl_name")) kept ->
  Forall2 (λ planet res, analyze_exoplanet planet = Ok res) kept out ->
  planet_name <$> out = dedup_name <$> kept.
Proof.
  intros Hkey Hall. induction Hall as [|planet res kept out Hres Hall IH];
    [done|].
  apply Forall_cons in Hkey as [[v Hv] Hkey]. cbn. f_equal; [|by apply IH].
  rewrite (analyze_exoplanet_planet_name _ _ Hres).
  unfold get_default, dedup_name, get. by rewrite Hv.
Qed.

(** C9, as the code has it.  For a non-empty list of records, the output
    holds the analyses of the first occurrences, by name, among the
    records whose analysis returns: names are not repeated (also as
    [planet_name] of the output when every record has the key
    [pl_name]), one diagnostic is printed per record, and a record is
    reported as a skipped duplicate exactly when an earlier record of the
    same name was analysed; a record whose analysis raises is reported as
    an error and does not reserve its name. *)
Theorem first_analyzed_record_per_name (data : list record) :
  data <> [] ->
  let kept := first_occurrences (filter analyzable data) in
  exists out log,
    process_exoplanet_data (LoadedList data) = Some (DumpedList out, log) /\
    Forall2 (λ planet res, analyze_exoplanet planet = Ok res) kept out /\
    NoDup (dedup_name <$> kept) /\
    (Forall (λ planet : record, is_Some (planet !! "pl_name")) data ->
     NoDup (planet_name <$> out)) /\
    length log = length data /\
    (forall pre planet post, data = pre ++ planet :: post ->
       log !! length pre
       = Some
           (if decide (Exists (λ r, analyzable r /\
                                    dedup_name r = dedup_name planet) pre)
            then SkippedDuplicate (dedup_name planet)
            else match analyze_exoplanet planet with
                 | Ok _ => ProcessedPlanet (dedup_name planet)
                 | Raise e => ErrorProcessing (dedup_name planet) e
                 end)).
Proof.
  intros Hne kept.
  exists (results (process_planets (Batch [] ∅ []) data)),
         (printed (process_planets (Batch [] ∅ []) data)).
  destruct (process_planets_results data (Batch [] ∅ []))
    as (new & Hnew & Hall).
  cbn [results processed_planets app] in Hnew, Hall.
  assert (Hkept : filter (λ r, analyzable r /\ dedup_name r ∉ (∅ : listset value))
                    data = filter analyzable data).
  { apply list_filter_iff. intros x. split; [tauto|]. intros Hx.
    split; [exact Hx | apply not_elem_of_empty]. }
  rewrite Hkept in Hall. fold kept in Hall. rewrite Hnew.
  assert (Hdup : NoDup (dedup_name <$> kept))
    by apply first_occurrences_NoDup.
  repeat apply conj.
  - destruct data as [|planet rest]; [done|].
    unfold process_exoplanet_data. cbv zeta. by rewrite Hnew.
  - exact Hall.
  - exact Hdup.
  - intros Hkey. rewrite (output_names kept new); [exact Hdup| |exact Hall].
    apply Forall_forall. intros x Hx. rewrite Forall_forall in Hkey.
    apply Hkey. unfold kept in Hx.
    apply first_occurrences_spec in Hx as (pre & post & Heq & _).
    assert (Hin : x ∈ filter analyzable data)
      by (rewrite Heq, elem_of_app, elem_of_cons; auto).
    by apply list_elem_of_filter in Hin as [_ ?].
  - destruct (process_planets_printed data (Batch [] ∅ []))
      as (l & Hl & Hlen). rewrite Hl. exact Hlen.
  - intros pre planet post ->. rewrite process_planets_diagnostic.
    f_equal. unfold diagnosis. apply decide_ext.
    rewrite process_planets_seen.
    split; [intros [Hin%elem_of_empty|Hin]; done | by right].
Qed.

(** When every record can be analysed, the records kept are the first
    occurrences of the input itself. *)
Lemma first_occurrences_all_analyzable (data : list record) :
  Forall analyzable data ->
  first_occurrences (filter analyzable data) = first_occurrences data.
Proof.
  intros Hall. f_equal. induction Hall as [|r data Hr Hall IH]; [done|].
  rewrite filter_cons_True by done. by rewrite IH.
Qed.

Lemma kepler_hot_raises : analyze_exoplanet kepler_hot = Raise ValueError.
Proof. run kepler_hot. reflexivity. Qed.

Lemma kepler_plain_analyzed :
  exists res, analyze_exoplanet kepler_plain = Ok res /\
              explained res "distance" "value" = Some (VNum (40 * 3.26)).
Proof. run kepler_plain. eexists. split; reflexivity. Qed.

(** C9, as stated, fails: the first record named Kepler-42 b raises in
    the habitable-zone formula, so the record emitted for that name comes
    from the second one, which is not skipped. *)
Lemma failed_first_record_does_not_reserve_name :
  dedup_name kepler_hot = VStr "Kepler-42 b" /\
  dedup_name kepler_plain = VStr "Kepler-42 b" /\
  exists res,
    analyze_exoplanet kepler_plain = Ok res /\
    process_exoplanet_data (LoadedList [kepler_hot; kepler_plain])
    = Some (DumpedList [res],
            [ErrorProcessing (VStr "Kepler-42 b") ValueError;
             ProcessedPlanet (VStr "Kepler-42 b")]).
Proof.
  assert (Hh : dedup_name kepler_hot = VStr "Kepler-42 b")
    by (unfold dedup_name; lookups kepler_hot; reflexivity).
  assert (Hp : dedup_name kepler_plain = VStr "Kepler-42 b")
    by (unfold dedup_name; lookups kepler_plain; reflexivity).
  split; [exact Hh | split; [exact Hp|]].
  destruct kepler_plain_analyzed as (res & Hres & _). exists res.
  split; [exact Hres|].
  unfold process_exoplanet_data, process_planets. cbn [foldl].
  unfold process_planet. fold (dedup_name kepler_hot).
  fold (dedup_name kepler_plain). rewrite Hh, Hp.
  rewrite kepler_hot_raises, Hres. cbn [processed_planets results printed].
  rewrite !decide_False by apply not_elem_of_empty.
  reflexivity.
Qed.

Lemma first_analyzed_record_per_name_witness :
  exists out log,
    process_exoplanet_data (LoadedList [kepler_hot; kepler_plain])
    = Some (DumpedList out, log) /\
    length log = 2%nat.
Proof.
  destruct (first_analyzed_record_per_name [kepler_hot; kepler_plain])
    as (out & log & Hrun & _ & _ & _ & Hlen & _); [discriminate|].
  exists out, log. split; [exact Hrun | exact Hlen].
Defined.

(** ** The scenarios of the specification, run on the code *)

(** Scenario E: of two records named Kepler-42 b that can be analysed,
    the first is the one emitted and the second is skipped. *)
Example scenario_e (later : record) :
  dedup_name later = VStr "Kepler-42 b" ->
  exists res,
    analyze_exoplanet kepler_plain = Ok res /\
    explained res "distance" "value" = Some (VNum (40 * 3.26)) /\
    process_exoplanet_data (LoadedList [kepler_plain; later])
    = Some (DumpedList [res],
            [ProcessedPlanet (VStr "Kepler-42 b");
             SkippedDuplicate (VStr "Kepler-42 b")]).
Proof.
  intros Hlater.
  assert (Hp : dedup_name kepler_plain = VStr "Kepler-42 b")
    by (unfold dedup_name; lookups kepler_plain; reflexivity).
  destruct kepler_plain_analyzed as (res & Hres & Hdist). exists res.
  split; [exact Hres | split; [exact Hdist|]].
  assert (Hfirst : process_planet (Batch [] ∅ []) kepler_plain
                   = Batch [res] ({[VStr "Kepler-42 b"]} ∪ ∅)
                       [ProcessedPlanet (VStr "Kepler-42 b")]).
  { unfold process_planet. fold (dedup_name kepler_plain).
    rewrite Hp, Hres. cbn [processed_planets results printed].
    rewrite decide_False by apply not_elem_of_empty. reflexivity. }
  unfold process_exoplanet_data. cbv zeta.
  rewrite !process_planets_cons, Hfirst.
  unfold process_planet. fold (dedup_name later). rewrite Hlater.
  cbn [processed_planets results printed].
  rewrite decide_True; [reflexivity|].
  rewrite elem_of_union, elem_of_singleton. by left.
Qed.

(** Scenario A: a parallax of 100 mas is 32.6 light-years. *)
Example scenario_a :
  calculate_earth_distance_light_years (VNum 100) VNone
  = Ok (VNum (1000 / 100 * 3.26)) /\ 1000 / 100 * 3.26 = 32.6.
Proof. split; [apply distance_from_parallax|]; lra. Qed.

(** Scenario D: with only [pl_msinie = 5] the mass entry carries the
    value 5 and the note on minimum masses. *)
Example scenario_d :
  explain_mass {[ "pl_msinie" := VNum 5 ]}
  = Ok (Entry [Txt "This planet has a minimum mass of approximately ";
               Fixed 1 5; Txt " times the mass of Earth."]
          {[ "earth_mass_ratio" := VNum 5;
             "note" := VStr "This is a minimum mass value derived from radial velocity measurements." ]}).
Proof.
  unfold explain_mass, get. simplify_map_eq. cbn. rdecide. reflexivity.
Qed.

(** The star classifier on a few spectral types. *)
Example star_types :
  get_star_type_from_spectype (VStr "G2 V")
  = Ok (Some "G-type star (similar to our Sun)"%string) /\
  get_star_type_from_spectype (VStr " K3 III")
  = Ok (Some "K-type giant star"%string) /\
  get_star_type_from_spectype (VStr "M4.5 V")
  = Ok (Some "M-type red dwarf star"%string) /\
  get_star_type_from_spectype (VStr "  ") = Raise IndexError /\
  get_star_type_from_spectype VNone = Ok None /\
  str_split "  G8 IV-V " = ["G8"; "IV-V"]%string.
Proof. repeat apply conj; reflexivity. Qed.

(** * Further properties of the code *)

(** ** The habitable-zone formula *)

(** When [calculate_habitable_zone] returns, both denominators are
    non-zero, both quotients are non-negative and the boundaries are the
    scaled roots. *)
Lemma calculate_habitable_zone_inv (L T ri ro : R) :
  calculate_habitable_zone L T = Ok (ri, ro) ->
  inner_denominator T <> 0 /\ outer_denominator T <> 0 /\
  0 <= L / inner_denominator T /\ 0 <= L / outer_denominator T /\
  ri = 0.72 * sqrt (L / inner_denominator T) /\
  ro = 1.77 * sqrt (L / outer_denominator T).
Proof.
  unfold calculate_habitable_zone.
  fold (inner_denominator T). fold (outer_denominator T).
  unfold py_div, math_sqrt.
  destruct (decide (inner_denominator T = 0)) as [|Hi]; [discriminate|].
  cbn. destruct (decide (L / inner_denominator T < 0)) as [|Hqi];
    [discriminate|]. cbn.
  destruct (decide (outer_denominator T = 0)) as [|Ho]; [discriminate|].
  cbn. destruct (decide (L / outer_denominator T < 0)) as [|Hqo];
    [discriminate|]. cbn.
  intros [= <- <-]. repeat apply conj; try done; lra.
Qed.

(** The boundaries for a luminosity and a temperature in range. *)
Lemma zone_in_range (L T : R) :
  0 < L -> 0 <= T <= 21600 ->
  exists ri ro, calculate_habitable_zone L T = Ok (ri, ro) /\
                0 < ri /\ ri < ro.
Proof.
  intros HL HT. destruct (denominators_in_range T HT) as (Hi & Ho & Hc).
  rewrite calculate_habitable_zone_ok by lra.
  do 2 eexists; split; [reflexivity|].
  assert (Hqi : 0 < L / inner_denominator T)
    by (apply Rdiv_lt_0_compat; lra).
  assert (Hqo : 0 < L / outer_denominator T)
    by (apply Rdiv_lt_0_compat; lra).
  split.
  - apply Rmult_lt_0_compat; [lra | by apply sqrt_lt_R0].
  - apply scaled_sqrt_lt; try lra.
    unfold Rdiv.
    apply (Rmult_lt_reg_r (inner_denominator T * outer_denominator T));
      [nra|].
    replace (0.72 ^ 2 * (L * / inner_denominator T)
             * (inner_denominator T * outer_denominator T))
      with (L * (0.72 ^ 2 * outer_denominator T)) by (field; lra).
    replace (1.77 ^ 2 * (L * / outer_denominator T)
             * (inner_denominator T * outer_denominator T))
      with (L * (1.77 ^ 2 * inner_denominator T)) by (field; lra).
    nra.
Qed.

(** From 25928 K on the inner denominator is negative. *)
Lemma inner_denominator_negative (T : R) :
  25928 <= T -> inner_denominator T < 0.
Proof. intros HT. unfold inner_denominator. nra. Qed.

(** ** The habitability sentence *)







(** ** Host stars too hot for the formula *)

(** X4: a record with a positive luminosity, a stellar temperature of
    25928 K or more and an orbital distance is never analysed:
    [analyze_exoplanet] raises, whatever the other fields hold. *)
Theorem hot_host_star_is_never_analyzed (r : record) (L T : R) :
  resolve_star_luminosity r = Ok (VNum L) -> 0 < L ->
  get r "st_teff" = VNum T -> 25928 <= T ->
  truthy (get r "pl_orbsmax") = true ->
  calculate_habitable_zone L T = Raise ValueError /\
  exists e, analyze_exoplanet r = Raise e.
Proof.
  intros HL HL0 HT HT0 Hd.
  assert (Hz : calculate_habitable_zone L T = Raise ValueError).
  { apply calculate_habitable_zone_domain_error; [exact HL0|].
    by apply inner_denominator_negative. }
  split; [exact Hz|].
  unfold analyze_exoplanet. rewrite HL. cbn [mbind result_bind].
  destruct (explain_distance r) as [distance|e]; [|by exists e].
  cbn [mbind result_bind].
  assert (Hh : explain_habitability r (VNum L) = Raise ValueError).
  { unfold explain_habitability. rewrite HT, Hd. cbn.
    rdecide. cbn. by rewrite Hz. }
  rewrite Hh. by eexists.
Qed.

Lemma hot_host_star_is_never_analyzed_witness :
  exists e, analyze_exoplanet kepler_hot = Raise e.
Proof.
  apply (hot_host_star_is_never_analyzed kepler_hot 1 30000).
  - unfold resolve_star_luminosity. lookups kepler_hot. reflexivity.
  - lra.
  - lookups kepler_hot. reflexivity.
  - lra.
  - lookups kepler_hot. cbn. by rdecide.
Defined.

(** ** Planet types *)

(** A chain of branches returns one of its labels or the last one. *)
Lemma first_branch_labels (branches : list (result bool * string))
    (otherwise label : string) :
  first_branch branches otherwise = Ok label ->
  label = otherwise \/ label ∈ (snd <$> branches).
Proof.
  induction branches as [|[cond l] rest IH]; cbn [first_branch].
  - intros [= <-]. by left.
  - destruct cond as [[|]|]; cbn [mbind result_bind]; [| |discriminate].
    + intros [= <-]. right. cbn. apply elem_of_cons. by left.
    + intros [H|H]%IH; [by left|]. right. cbn. apply elem_of_cons.
      by right.
Qed.

(** The label "Unknown (insufficient data)" is returned only when neither
    a mass nor a radius was extracted. *)
Lemma classify_planet_unknown (earth_mass earth_radius : value) :
  classify_planet earth_mass earth_radius
  = Ok "Unknown (insufficient data)"%string
  <-> earth_mass = VNone /\ earth_radius = VNone.
Proof.
  split; [|by intros [-> ->]].
  unfold classify_planet.
  destruct earth_mass, earth_radius; cbn [is_none negb andb];
    try (split; reflexivity).
  all: intros [H|H]%first_branch_labels; [discriminate|].
  all: cbn in H; set_unfold; intuition discriminate.
Qed.

(** X5: [get_planet_type] answers "Unknown (insufficient data)" exactly
    for the records in which the four mass fields and the two radius
    fields are all null or missing. *)
Theorem planet_type_unknown_iff_no_field (r : record) :
  get_planet_type (Some r) (Some r) = Ok "Unknown (insufficient data)"%string
  <-> get r "pl_bmassj" = VNone /\ get r "pl_bmasse" = VNone /\
      get r "pl_msinij" = VNone /\ get r "pl_msinie" = VNone /\
      get r "pl_rade" = VNone /\ get r "pl_radj" = VNone.
Proof.
  unfold get_planet_type. split.
  - intros H. apply bind_Ok_inv in H as (em & Hm & H).
    apply bind_Ok_inv in H as (er & Hr & H).
    apply classify_planet_unknown in H as [-> ->].
    cbn in Hm, Hr. revert Hm Hr.
    destruct (get r "pl_bmassj"); cbn; [|discriminate..].
    destruct (get r "pl_bmasse"); cbn; [|discriminate..].
    destruct (get r "pl_msinij"); cbn; [|discriminate..].
    destruct (get r "pl_msinie"); cbn; [|discriminate..].
    destruct (get r "pl_rade"); cbn; [|discriminate..].
    destruct (get r "pl_radj"); cbn; [|discriminate..].
    done.
  - intros (H1 & H2 & H3 & H4 & H5 & H6). cbn.
    rewrite H1, H2, H3, H4, H5, H6. reflexivity.
Qed.

(** The one-variable tables on a number. *)
Lemma classify_planet_mass_only (m : R) :
  classify_planet (VNum m) VNone
  = Ok (if decide (m < 0.1) then "Sub-Earth/Mercury-like"
        else if decide (m < 2) then "Possibly Earth-like"
        else if decide (m < 10) then "Possibly Super-Earth"
        else if decide (m < 50) then "Possibly Mini-Neptune"
        else if decide (m < 500) then "Neptune-like gas giant"
        else "Jupiter-like gas giant")%string.
Proof.
  unfold classify_planet, first_branch. rewrite !lt_num_num. cbn.
  repeat (case_bool_decide; cbn);
    repeat (case_decide; try reflexivity; try lra).
Qed.

Lemma classify_planet_radius_only (x : R) :
  classify_planet VNone (VNum x)
  = Ok (if decide (x < 0.8) then "Sub-Earth/Mercury-like"
        else if decide (x < 1.5) then "Possibly Earth-like"
        else if decide (x < 2.5) then "Possibly Super-Earth"
        else if decide (x < 6) then "Possibly Mini-Neptune/Gas Dwarf"
        else if decide (x < 15) then "Neptune-like gas giant"
        else "Jupiter-like gas giant")%string.
Proof.
  unfold classify_planet, first_branch. rewrite !lt_num_num. cbn.
  repeat (case_bool_decide; cbn);
    repeat (case_decide; try reflexivity; try lra).
Qed.

(** Compare the classes of two labels that are known. *)
Ltac class_le_solve :=
  unfold class_le;
  first [ by (do 2 eexists; repeat split; [reflexivity..|cbn; lia])
        | exfalso; lra ].

(** X6: the planet class never gets lighter when the mass or the radius
    grows, in each of the three tables of [get_planet_type]. *)
Theorem planet_class_is_monotone (m1 m2 x1 x2 : R) :
  m1 <= m2 -> x1 <= x2 ->
  (exists l1 l2,
     classify_planet (VNum m1) (VNum x1) = Ok l1 /\
     classify_planet (VNum m2) (VNum x2) = Ok l2 /\ class_le l1 l2) /\
  (exists l1 l2,
     classify_planet (VNum m1) VNone = Ok l1 /\
     classify_planet (VNum m2) VNone = Ok l2 /\ class_le l1 l2) /\
  (exists l1 l2,
     classify_planet VNone (VNum x1) = Ok l1 /\
     classify_planet VNone (VNum x2) = Ok l2 /\ class_le l1 l2).
Proof.
  intros Hm Hx. repeat apply conj.
  - rewrite !classify_planet_both_known. do 2 eexists.
    split; [reflexivity | split; [reflexivity|]].
    unfold both_known_table.
    repeat case_decide; class_le_solve.
  - rewrite !classify_planet_mass_only. do 2 eexists.
    split; [reflexivity | split; [reflexivity|]].
    repeat case_decide; class_le_solve.
  - rewrite !classify_planet_radius_only. do 2 eexists.
    split; [reflexivity | split; [reflexivity|]].
    repeat case_decide; class_le_solve.
Qed.

Lemma planet_class_is_monotone_witness :
  exists l1 l2,
    classify_planet (VNum 1) (VNum 1) = Ok l1 /\
    classify_planet (VNum 5) (VNum 2) = Ok l2 /\ class_le l1 l2.
Proof.
  destruct (planet_class_is_monotone 1 5 1 2) as [H _]; [lra | lra|].
  exact H.
Defined.

(** With a mass and without a radius the label is that of the mass-only
    table; with a radius that is not a number the both-known table can
    only answer where it does not look at the radius. *)
Lemma classify_planet_heavier_with_radius (m : R) (er : value) (lb lm : string) :
  classify_planet (VNum m) er = Ok lb ->
  classify_planet (VNum m) VNone = Ok lm ->
  class_le lm lb.
Proof.
  rewrite classify_planet_mass_only. intros Hb [= <-]. revert Hb.
  destruct er as [|x|s].
  - rewrite classify_planet_mass_only. intros [= <-].
    repeat case_decide; class_le_solve.
  - rewrite classify_planet_both_known. intros [= <-].
    unfold both_known_table. repeat case_decide; class_le_solve.
  - unfold classify_planet, first_branch, and_then. rewrite !lt_num_num.
    cbn. repeat (case_bool_decide; cbn); try discriminate;
      intros [= <-]; repeat case_decide; class_le_solve.
Qed.

(** X7: for a planet whose mass is known, taking the radius into account
    never gives a lighter class than the mass alone. *)
Theorem radius_never_lightens_the_class (pm pr : option record) (m : R)
    (lb lm : string) :
  planet_type_earth_mass pm = Ok (VNum m) ->
  get_planet_type pm pr = Ok lb ->
  get_planet_type pm None = Ok lm ->
  class_le lm lb.
Proof.
  unfold get_planet_type. intros -> Hb Hm. cbn in Hb, Hm.
  apply bind_Ok_inv in Hb as (er & _ & Hb).
  by apply (classify_planet_heavier_with_radius m er).
Qed.

Lemma radius_never_lightens_the_class_witness :
  class_le "Possibly Earth-like" "Neptune-like gas giant".
Proof.
  apply (radius_never_lightens_the_class
           (Some {[ "pl_bmasse" := VNum 1 ]})
           (Some {[ "pl_rade" := VNum 7 ]}) 1).
  - cbn. unfold get. simplify_map_eq. reflexivity.
  - unfold get_planet_type. cbn. unfold get. simplify_map_eq.
    rewrite classify_planet_both_known. unfold both_known_table.
    by rdecide.
  - unfold get_planet_type. cbn. unfold get. simplify_map_eq.
    rewrite classify_planet_mass_only. by rdecide.
Defined.

(** ** Spectral types *)

Arguments space1 : simpl never.
Arguments space2 : simpl never.
Arguments space3 : simpl never.

(** Follow a scan over the first three characters of [s]. *)
Ltac skip_cases s :=
  let c1 := fresh "c1" in let s1 := fresh "s1" in
  let c2 := fresh "c2" in let s2 := fresh "s2" in
  let c3 := fresh "c3" in let s3 := fresh "s3" in
  destruct s as [|c1 s1]; [done|]; cbn;
  destruct (space1 c1); [done|];
  destruct s1 as [|c2 s2]; [done|]; cbn;
  destruct (space2 c1 c2); [done|];
  destruct s2 as [|c3 s3]; [done|]; cbn;
  by destruct (space3 c1 c2 c3).

(** The three scanning functions, step by step. *)
Lemma only_whitespace_skip (s : string) :
  only_whitespace s
  = match skip_space s with
    | Some rest => only_whitespace rest
    | None => match s with EmptyString => true | _ => false end
    end.
Proof.
  skip_cases s.
Qed.

Lemma str_lstrip_skip (s : string) :
  str_lstrip s
  = match skip_space s with
    | Some rest => str_lstrip rest
    | None => s
    end.
Proof.
  skip_cases s.
Qed.

Lemma str_split_go_skip (cur : option string) (s : string) :
  str_split_go cur s
  = match skip_space s with
    | Some rest => option_list (String.rev <$> cur) ++ str_split_go None rest
    | None =>
        match s with
        | EmptyString => option_list (String.rev <$> cur)
        | String c s' =>
            str_split_go (Some (String c (default EmptyString cur))) s'
        end
    end.
Proof.
  skip_cases s.
Qed.

Lemma skip_space_length (s rest : string) :
  skip_space s = Some rest -> (String.length rest < String.length s)%nat.
Proof.
  destruct s as [|c1 s1]; [done|]; cbn.
  destruct (space1 c1); [intros [= <-]; cbn; lia|].
  destruct s1 as [|c2 s2]; [done|].
  destruct (space2 c1 c2); [intros [= <-]; cbn; lia|].
  destruct s2 as [|c3 s3]; [done|].
  destruct (space3 c1 c2 c3); [intros [= <-]; cbn; lia | done].
Qed.

(** Induction on the length of a string. *)
Lemma string_length_ind (P : string -> Prop) :
  (forall s, (forall r, (String.length r < String.length s)%nat -> P r)
             -> P s) ->
  forall s, P s.
Proof.
  intros step s. remember (String.length s) as n eqn:Hn.
  revert s Hn. induction n as [n IH] using lt_wf_ind. intros s ->.
  apply step. intros r Hr. by apply (IH (String.length r)).
Qed.

Lemma only_whitespace_lstrip (s : string) :
  only_whitespace (str_lstrip s) = only_whitespace s.
Proof.
  induction s as [s IH] using string_length_ind.
  rewrite (str_lstrip_skip s), (only_whitespace_skip s).
  destruct (skip_space s) as [rest|] eqn:Hs.
  - apply IH. by apply skip_space_length.
  - by rewrite only_whitespace_skip, Hs.
Qed.

(** What [lstrip] leaves does not start with whitespace. *)
Lemma skip_space_lstrip (s : string) : skip_space (str_lstrip s) = None.
Proof.
  induction s as [s IH] using string_length_ind.
  rewrite (str_lstrip_skip s).
  destruct (skip_space s) as [rest|] eqn:Hs; [|exact Hs].
  apply IH. by apply skip_space_length.
Qed.

(** [rstrip] keeps a first character that is not whitespace, and what
    it leaves does not start with whitespace either. *)
Lemma str_rstrip_head (c : ascii) (t : string) :
  skip_space (String c t) = None ->
  str_rstrip (String c t) = String c (str_rstrip t) /\
  skip_space (String c (str_rstrip t)) = None.
Proof.
  intros Hs. split.
  - cbn [str_rstrip]. by rewrite only_whitespace_skip, Hs.
  - revert Hs. destruct t as [|c2 [|c3 t3]]; cbn [str_rstrip];
      repeat (destruct (only_whitespace _)); cbn;
      repeat case_match; congruence.
Qed.

(** [strip] keeps the first character that is not whitespace. *)
Lemma str_strip_head (s t : string) (c : ascii) :
  str_lstrip s = String c t ->
  exists z, str_strip s = String c z /\ skip_space (String c z) = None.
Proof.
  intros Hs. unfold str_strip. rewrite Hs.
  assert (Hskip : skip_space (String c t) = None)
    by (rewrite <- Hs; apply skip_space_lstrip).
  destruct (str_rstrip_head c t Hskip) as [-> Hz]. by eexists.
Qed.


Lemma str_app_cons (a : ascii) (u v : string) :
  (String a u +:+ v)%string = String a (u +:+ v).
Proof. reflexivity. Qed.

Lemma str_app_nil_r (u : string) : (u +:+ "")%string = u.
Proof.
  induction u as [|a u IH]; [done|]. by rewrite str_app_cons, IH.
Qed.

Lemma str_app_assoc (u v w : string) :
  ((u +:+ v) +:+ w)%string = (u +:+ (v +:+ w))%string.
Proof.
  induction u as [|a u IH]; [done|]. by rewrite !str_app_cons, IH.
Qed.

Lemma rev_app_append (s acc : string) :
  String.rev_app s acc = (String.rev_app s "" +:+ acc)%string.
Proof.
  revert acc. induction s as [|c s IH]; intros acc; [done|]. cbn.
  rewrite (IH (String c acc)), (IH (String c "")).
  by rewrite str_app_assoc.
Qed.

(** The word being read is the start of the first word returned. *)
Lemma str_split_go_head (cur s : string) :
  exists suffix rest,
    str_split_go (Some cur) s = (String.rev cur +:+ suffix)%string :: rest.
Proof.
  revert cur. induction s as [|c s IH]; intros cur.
  - exists ""%string, []. cbn. by rewrite str_app_nil_r.
  - rewrite str_split_go_skip.
    destruct (skip_space (String c s)) as [rest|].
    + exists ""%string, (str_split_go None rest). cbn.
      by rewrite str_app_nil_r.
    + change (default EmptyString (Some cur)) with cur.
      destruct (IH (String c cur)) as (suffix & rest & ->).
      exists (String c suffix), rest. f_equal.
      unfold String.rev. cbn. rewrite (rev_app_append cur (String c "")).
      by rewrite str_app_assoc.
Qed.

(** The first word of a string that does not start with whitespace
    starts with its first character. *)
Lemma str_split_head (s : string) (c : ascii) :
  skip_space (String c s) = None ->
  exists tok rest, str_split (String c s) = String c tok :: rest.
Proof.
  intros Hc. unfold str_split. rewrite str_split_go_skip, Hc.
  change (default EmptyString None) with EmptyString.
  destruct (str_split_go_head (String c "") s) as (suffix & rest & ->).
  by exists suffix, rest.
Qed.

(** [strip().split()] gives no word exactly on whitespace. *)
Lemma str_split_strip_nil (s : string) :
  str_split (str_strip s) = [] <-> only_whitespace s = true.
Proof.
  rewrite <- only_whitespace_lstrip.
  destruct (str_lstrip s) as [|c t] eqn:Hs.
  - unfold str_strip. rewrite Hs. done.
  - destruct (str_strip_head s t c Hs) as (z & -> & Hz).
    destruct (str_split_head z c Hz) as (tok & rest & ->).
    rewrite only_whitespace_skip.
    replace (skip_space (String c t)) with (@None string)
      by (rewrite <- Hs; symmetry; apply skip_space_lstrip).
    done.
Qed.

(** A one-letter prefix test looks at the first character only. *)
Lemma str_startswith_letter (c a : ascii) (tok : string) :
  str_startswith (String c tok) (String a "") = bool_decide (a = c).
Proof.
  unfold str_startswith. cbn.
  destruct (ascii_dec a c) as [->|Hne].
  - rewrite bool_decide_eq_true_2 by done. by destruct tok.
  - by rewrite bool_decide_eq_false_2.
Qed.

Lemma prefix_cons (a c : ascii) (p s : string) :
  String.prefix (String a p) (String c s)
  = if ascii_dec a c then String.prefix p s else false.
Proof. reflexivity. Qed.

Lemma prefix_nil (s : string) : String.prefix "" s = true.
Proof. by destruct s. Qed.

Lemma prefix_letter (p s : string) :
  String.prefix (String "I" p) s = true -> String.prefix "I" s = true.
Proof.
  destruct s as [|a s]; [done|]. rewrite !prefix_cons.
  destruct (ascii_dec "I" a); [intros _; apply prefix_nil | done].
Qed.

Lemma str_contains_unfold (sub s : string) :
  str_contains sub s
  = String.prefix sub s
    || match s with
       | EmptyString => false
       | String _ s' => str_contains sub s'
       end.
Proof. by destruct s. Qed.

Lemma str_contains_letter (p s : string) :
  str_contains (String "I" p) s = true -> str_contains "I" s = true.
Proof.
  induction s as [|a s IH]; rewrite !(str_contains_unfold _ (String _ _)) ||
                            rewrite !(str_contains_unfold _ "").
  - rewrite !orb_false_r. apply prefix_letter.
  - rewrite !orb_true_iff. intros [H|H]; [left; by apply (prefix_letter p)|].
    right. by apply IH.
Qed.

(** A string that contains "II" or "III" contains "I". *)
Lemma str_contains_longer (s : string) :
  (str_contains "III" s || str_contains "II" s || str_contains "I" s)
  = str_contains "I" s.
Proof.
  destruct (str_contains "III" s) eqn:H3; cbn [orb].
  - symmetry. by apply (str_contains_letter "II"%string).
  - destruct (str_contains "II" s) eqn:H2; cbn [orb]; [|done].
    symmetry. by apply (str_contains_letter "I"%string).
Qed.

(** Where [get_star_type_from_spectype] raises. *)
Lemma get_star_type_from_spectype_raises (v : value) :
  (exists e, get_star_type_from_spectype v = Raise e)
  <-> exists s, v = VStr s /\ s <> ""%string /\ only_whitespace s = true.
Proof.
  unfold get_star_type_from_spectype. destruct v as [|x|s]; cbn.
  - split; [by intros [e ?] | by intros (s & ? & _)].
  - destruct (bool_decide (x <> 0)); cbn;
      (split; [by intros [e ?] | by intros (s & ? & _)]).
  - case_bool_decide as Hs; cbn.
    + destruct (str_split (str_strip s)) as [|tok rest] eqn:Hsplit.
      * apply str_split_strip_nil in Hsplit.
        split; [intros _; by exists s | intros _; by eexists].
      * assert (Hns : only_whitespace s <> true).
        { rewrite <- str_split_strip_nil, Hsplit. done. }
        split.
        -- intros [e He]. exfalso. revert He.
           repeat (case_bool_decide || case_match); discriminate.
        -- intros (s' & [= <-] & _ & Hw). done.
    + split; [by intros [e ?]|]. intros (s' & [= <-] & Hne & _).
      exfalso. apply Hne. by apply dec_stable.
Qed.

(** X8: [get_star_type_from_spectype] raises exactly on a non-empty
    string made of whitespace only (the whitespace of [str.strip] and
    [str.split]: the ASCII blanks and the Unicode spaces), and a record
    with such a spectral type is never analysed. *)
Theorem blank_spectral_type_raises (r : record) :
  (forall v,
     (exists e, get_star_type_from_spectype v = Raise e)
     <-> exists s, v = VStr s /\ s <> ""%string /\ only_whitespace s = true)
  /\
  (forall s, get r "st_spectype" = VStr s -> s <> ""%string ->
     only_whitespace s = true ->
     get_star_type_from_spectype (VStr s) = Raise IndexError /\
     exists e, analyze_exoplanet r = Raise e).
Proof.
  split; [apply get_star_type_from_spectype_raises|].
  intros s Hr Hne Hw.
  assert (Hs : get_star_type_from_spectype (VStr s) = Raise IndexError).
  { unfold get_star_type_from_spectype. cbn.
    rewrite bool_decide_eq_true_2 by done. cbn.
    assert (Hsplit : str_split (str_strip s) = [])
      by (by apply str_split_strip_nil).
    by rewrite Hsplit. }
  split; [exact Hs|].
  assert (Hstar : explain_star_type r = Raise IndexError).
  { unfold explain_star_type. rewrite Hr, Hs. reflexivity. }
  unfold analyze_exoplanet.
  repeat match goal with
  | |- exists e, ?c ≫= _ = Raise e =>
      lazymatch c with
      | explain_star_type _ => fail
      | _ => destruct c; cbn [mbind result_bind]; [|by eexists]
      end
  end.
  rewrite Hstar. by eexists.
Qed.

(** A no-break space, U+00A0, followed by a blank. *)
Lemma blank_spectral_type_raises_witness :
  get_star_type_from_spectype (VStr (String "194" (String "160" " ")))
  = Raise IndexError.
Proof.
  destruct (blank_spectral_type_raises
              {[ "st_spectype" := VStr (String "194" (String "160" " ")) ]})
    as [_ H].
  destruct (H (String "194" (String "160" " ")))
    as [Hs _]; [|discriminate|reflexivity|exact Hs].
  unfold get. simplify_map_eq. reflexivity.
Defined.

(** The label of a spectral type as a function of its first character
    that is not whitespace and of the presence of a capital I. *)
Lemma get_star_type_from_spectype_letter :
  exists label : ascii -> bool -> result (option string),
    forall (s t : string) (c : ascii),
      str_lstrip s = String c t ->
      get_star_type_from_spectype (VStr s)
      = label c (str_contains "I" s).
Proof.
  exists (λ (c : ascii) (giant : bool),
    if bool_decide ("O"%char = c)
    then Ok (Some "extremely hot O-type star"%string)
    else if bool_decide ("B"%char = c)
    then Ok (Some "very hot B-type star"%string)
    else if bool_decide ("A"%char = c)
    then Ok (Some "hot A-type star"%string)
    else if bool_decide ("F"%char = c)
    then Ok (Some "F-type star (hotter than our Sun)"%string)
    else if bool_decide ("G"%char = c)
    then (if giant then Ok (Some "G-type giant star"%string)
          else Ok (Some "G-type star (similar to our Sun)"%string))
    else if bool_decide ("K"%char = c)
    then (if giant then Ok (Some "K-type giant star"%string)
          else Ok (Some "K-type orange dwarf star"%string))
    else if bool_decide ("M"%char = c)
    then (if giant then Ok (Some "M-type giant star"%string)
          else Ok (Some "M-type red dwarf star"%string))
    else if bool_decide ("L"%char = c) || bool_decide ("T"%char = c)
            || bool_decide ("Y"%char = c)
    then Ok (Some "very cool brown dwarf"%string)
    else Ok (Some "unknown type star"%string)).
  intros s t c Hs.
  destruct (str_strip_head s t c Hs) as (z & Hz & Hc).
  destruct (str_split_head z c Hc) as (tok & rest & Hsplit).
  unfold get_star_type_from_spectype.
  assert (Hne : s <> ""%string) by (intros ->; discriminate).
  cbn [truthy]. rewrite (bool_decide_eq_true_2 _ Hne). cbn [negb].
  rewrite Hz, Hsplit, str_contains_longer.
  rewrite bool_decide_eq_false_2 by discriminate.
  rewrite !str_startswith_letter. reflexivity.
Qed.

(** X9: the label given to a spectral type that is not blank depends
    only on the character that follows its leading whitespace (the
    first one of its encoding) and on whether the string holds a
    capital I anywhere; the tests for "II" and "III" add nothing. *)
Theorem star_type_reads_first_letter (s1 s2 t1 t2 : string) (c : ascii) :
  str_lstrip s1 = String c t1 ->
  str_lstrip s2 = String c t2 ->
  str_contains "I" s1 = str_contains "I" s2 ->
  get_star_type_from_spectype (VStr s1)
  = get_star_type_from_spectype (VStr s2).
Proof.
  intros H1 H2 HI.
  destruct get_star_type_from_spectype_letter as [label Hlabel].
  by rewrite (Hlabel s1 t1 c H1), (Hlabel s2 t2 c H2), HI.
Qed.

(** An em space, U+2003, before the second one. *)
Lemma star_type_reads_first_letter_witness :
  get_star_type_from_spectype (VStr "G8 IV")
  = get_star_type_from_spectype
      (VStr (String "226" (String "128" (String "131" " Giant I")))).
Proof.
  apply (star_type_reads_first_letter _ _ "8 IV" "iant I" "G");
    reflexivity.
Defined.

(** ** The size and mass sentences *)

(** X10: on records whose four mass fields are null or numbers other
    than zero, the mass entry reports the first that is present of
    [pl_bmasse], [pl_bmassj] times 317.8, [pl_msinie] and [pl_msinij]
    times 317.8 (the order [spec_mass_priority]), and [None] when there
    is none; it carries the note on minimum masses exactly when no
    measured mass is present and a minimum mass is. *)
Theorem mass_entry_follows_priority (r : record) :
  plain_number (get r "pl_bmasse") -> plain_number (get r "pl_bmassj") ->
  plain_number (get r "pl_msinie") -> plain_number (get r "pl_msinij") ->
  exists e shown,
    explain_mass r = Ok e /\
    fields e !! "earth_mass_ratio" = Some shown /\
    shown = reported (field_resolver spec_mass_priority r) /\
    (is_Some (fields e !! "note")
     <-> get r "pl_bmasse" = VNone /\ get r "pl_bmassj" = VNone /\
         (get r "pl_msinie" <> VNone \/ get r "pl_msinij" <> VNone)).
Proof.
  intros [He|(e & He & He0)] [Hj|(j & Hj & Hj0)]
         [Hme|(me & Hme & Hme0)] [Hmj|(mj & Hmj & Hmj0)];
    unfold explain_mass, field_resolver, spec_mass_priority;
    rewrite ?He, ?Hj, ?Hme, ?Hmj; cbn; rdecide; cbn;
    do 2 eexists;
    (split; [reflexivity|]); cbn;
    (split; [by simplify_map_eq|]);
    (split; [cbn; f_equal; lra || reflexivity|]);
    rewrite ?lookup_insert_ne, ?lookup_insert_eq, ?lookup_singleton_ne,
      ?lookup_singleton_eq by done;
    (split; [intros [? ?]; try discriminate | intros (? & ? & [?|?])]);
    try discriminate; try done; try (by eexists);
    repeat split; try done; auto.
Qed.

Lemma mass_entry_follows_priority_witness :
  exists e,
    explain_mass both_masses = Ok e /\
    fields e !! "earth_mass_ratio" = Some (VNum (1 * 1)).
Proof.
  destruct (mass_entry_follows_priority both_masses)
    as (e & shown & He & Hf & Hs & _).
  - right. exists 1. split; [lookups both_masses; reflexivity | lra].
  - right. exists 1. split; [lookups both_masses; reflexivity | lra].
  - left. lookups both_masses. reflexivity.
  - left. lookups both_masses. reflexivity.
  - exists e. split; [exact He|]. rewrite Hf, Hs. reflexivity.
Defined.

(** X11: on records whose two radius fields are null or numbers other
    than zero, the size entry reports [pl_rade] when it is present,
    else [pl_radj] times 11.2 (the order [spec_radius_priority]), and
    [None] when there is none; it keeps the Jupiter ratio exactly when
    the Earth-radius field is absent and the Jupiter one present. *)
Theorem size_entry_follows_priority (r : record) :
  plain_number (get r "pl_rade") -> plain_number (get r "pl_radj") ->
  exists e shown,
    explain_size r = Ok e /\
    fields e !! "earth_radius_ratio" = Some shown /\
    shown = reported (field_resolver spec_radius_priority r) /\
    (is_Some (fields e !! "jupiter_radius_ratio")
     <-> get r "pl_rade" = VNone /\ get r "pl_radj" <> VNone).
Proof.
  intros [He|(e & He & He0)] [Hj|(j & Hj & Hj0)];
    unfold explain_size, field_resolver, spec_radius_priority;
    rewrite ?He, ?Hj; cbn; rdecide; cbn;
    do 2 eexists;
    (split; [reflexivity|]); cbn;
    (split; [by simplify_map_eq|]);
    (split; [cbn; f_equal; lra || reflexivity|]);
    rewrite ?lookup_insert_ne, ?lookup_insert_eq, ?lookup_singleton_ne,
      ?lookup_singleton_eq by done;
    (split; [intros [? ?]; try discriminate | intros (? & ?)]);
    try discriminate; try done; try (by eexists);
    repeat split; try done; auto.
Qed.

Lemma size_entry_follows_priority_witness :
  exists e,
    explain_size earth_twin = Ok e /\
    fields e !! "earth_radius_ratio" = Some (VNum (1 * 1)).
Proof.
  destruct (size_entry_follows_priority earth_twin)
    as (e & shown & He & Hf & Hs & _).
  - right. exists 1. split; [lookups earth_twin; reflexivity | lra].
  - left. lookups earth_twin. reflexivity.
  - exists e. split; [exact He|]. rewrite Hf, Hs. reflexivity.
Defined.

(** ** The shape of an explanation *)

(** Take apart a block that returned the entry [e]. *)
Ltac block_inv H :=
  repeat first
    [ apply bind_Ok_inv in H as (? & _ & H)
    | match type of H with
      | (if ?b then _ else _) = Ok _ => destruct b
      end ];
  try discriminate; injection H as <-.

Ltac filled_solve :=
  split; [cbn; repeat case_decide; discriminate
         | cbn [fields]; by simplify_map_eq].

Lemma explain_distance_filled r e :
  explain_distance r = Ok e -> filled "value" e.
Proof. unfold explain_distance. intros H. block_inv H; filled_solve. Qed.

Lemma explain_habitability_filled r lum e :
  explain_habitability r lum = Ok e -> filled "assessment" e.
Proof.
  unfold explain_habitability. intros H.
  destruct (_ && _).
  - apply bind_Ok_inv in H as (? & _ & H).
    apply bind_Ok_inv in H as (? & _ & H).
    apply bind_Ok_inv in H as ([? ?] & _ & H).
    block_inv H; filled_solve.
  - block_inv H; filled_solve.
Qed.

Lemma explain_planet_type_filled r e :
  explain_planet_type r = Ok e -> filled "type" e.
Proof. unfold explain_planet_type. intros H. block_inv H; filled_solve. Qed.

Lemma explain_size_filled r e :
  explain_size r = Ok e -> filled "earth_radius_ratio" e.
Proof. unfold explain_size. intros H. block_inv H; filled_solve. Qed.

Lemma explain_mass_filled r e :
  explain_mass r = Ok e -> filled "earth_mass_ratio" e.
Proof. unfold explain_mass. intros H. block_inv H; filled_solve. Qed.

Lemma explain_gravity_filled r e :
  explain_gravity r = Ok e -> filled "earth_gravity_ratio" e.
Proof. unfold explain_gravity. intros H. block_inv H; filled_solve. Qed.

Lemma explain_year_length_filled r e :
  explain_year_length r = Ok e -> filled "orbital_period_days" e.
Proof.
  unfold explain_year_length. intros H. block_inv H; filled_solve.
Qed.

Lemma explain_star_type_filled r e :
  explain_star_type r = Ok e -> filled "star_type" e.
Proof. unfold explain_star_type. intros H. block_inv H; filled_solve. Qed.

(** X12: every dictionary returned by [analyze_exoplanet] has exactly
    the eight sections, and each section has a sentence and its value
    key (holding a value or [None]). *)
Theorem explanation_has_eight_sections (r : record) (res : explanation) :
  analyze_exoplanet r = Ok res ->
  dom (layman_explanation res) = list_to_set (fst <$> sections) /\
  Forall (λ '(section, key),
            exists e, layman_explanation res !! section = Some e /\
                      filled key e) sections.
Proof.
  unfold analyze_exoplanet. intros H.
  apply bind_Ok_inv in H as (lum & _ & H).
  apply bind_Ok_inv in H as (distance & Hdistance & H).
  apply bind_Ok_inv in H as (habitability & Hhabitability & H).
  apply bind_Ok_inv in H as (planet_type & Hplanet_type & H).
  apply bind_Ok_inv in H as (size & Hsize & H).
  apply bind_Ok_inv in H as (mass & Hmass & H).
  apply bind_Ok_inv in H as (gravity & Hgravity & H).
  apply bind_Ok_inv in H as (year_length & Hyear_length & H).
  apply bind_Ok_inv in H as (star_type & Hstar_type & H).
  injection H as <-. cbn [layman_explanation]. split.
  - reflexivity.
  - unfold sections.
    repeat (apply List.Forall_cons; [eexists; split; [by simplify_map_eq|]|]);
      [..|apply Forall_nil].
    + by eapply explain_distance_filled.
    + by eapply explain_habitability_filled.
    + by eapply explain_planet_type_filled.
    + by eapply explain_size_filled.
    + by eapply explain_mass_filled.
    + by eapply explain_gravity_filled.
    + by eapply explain_year_length_filled.
    + by eapply explain_star_type_filled.
    + done.
Qed.

Lemma explanation_has_eight_sections_witness :
  exists res,
    analyze_exoplanet all_zero = Ok res /\
    dom (layman_explanation res) = list_to_set (fst <$> sections).
Proof.
  destruct all_zero_analyzed as [res Hres]. exists res.
  split; [exact Hres|].
  by destruct (explanation_has_eight_sections all_zero res Hres).
Defined.

(** ** The fields an analysis depends on *)

Lemma get_insert_ne (r : record) (k f : string) (v : value) :
  k <> f -> get (<[k:=v]> r) f = get r f.
Proof. intros H. unfold get. by rewrite lookup_insert_ne. Qed.

Lemma get_default_insert_ne (r : record) (k f : string) (v d : value) :
  k <> f -> get_default (<[k:=v]> r) f d = get_default r f d.
Proof. intros H. unfold get_default. by rewrite lookup_insert_ne. Qed.

Lemma get_delete_ne (r : record) (k f : string) :
  k <> f -> get (delete k r) f = get r f.
Proof. intros H. unfold get. by rewrite lookup_delete_ne. Qed.

Lemma get_default_delete_ne (r : record) (k f : string) (d : value) :
  k <> f -> get_default (delete k r) f d = get_default r f d.
Proof. intros H. unfold get_default. by rewrite lookup_delete_ne. Qed.

(** X13: [analyze_exoplanet] depends on eighteen keys only: setting or
    removing any other key of a record changes neither the explanation
    nor the exception. *)
Theorem analysis_reads_consulted_fields_only (r : record) (k : string)
    (v : value) :
  k ∉ consulted_fields ->
  analyze_exoplanet (<[k:=v]> r) = analyze_exoplanet r /\
  analyze_exoplanet (delete k r) = analyze_exoplanet r.
Proof.
  unfold consulted_fields. rewrite !not_elem_of_cons. intros Hk.
  destruct_and!.
  unfold analyze_exoplanet, resolve_star_luminosity, explain_distance,
    explain_habitability, explain_planet_type, explain_size, explain_mass,
    explain_gravity, explain_year_length, explain_star_type,
    get_planet_type, calculate_surface_gravity, measured_earth_mass,
    planet_type_earth_mass, extract_earth_radius, is_planet_habitable,
    habitable_mass_suitable, habitable_size_suitable.
  split.
  - by rewrite !get_insert_ne, !get_default_insert_ne by done.
  - by rewrite !get_delete_ne, !get_default_delete_ne by done.
Qed.

Lemma analysis_reads_consulted_fields_only_witness :
  analyze_exoplanet (<["pl_letter" := VStr "b"]> kepler_plain)
  = analyze_exoplanet kepler_plain.
Proof.
  destruct (analysis_reads_consulted_fields_only kepler_plain "pl_letter"
              (VStr "b")) as [Hset _]; [|exact Hset].
  unfold consulted_fields. intros H.
  repeat (apply elem_of_cons in H as [H|H]; [discriminate|]).
  by apply elem_of_nil in H.
Defined.

(** ** Records that are always analysed *)

Lemma bind_Ok {A B} (a : A) (k : A -> result B) : Ok a ≫= k = k a.
Proof. reflexivity. Qed.

Lemma star_type_from_temp_returns (t : R) :
  exists st, star_type_from_temp (VNum t) = Ok st.
Proof.
  unfold star_type_from_temp, first_branch, gt_num. cbn.
  repeat (case_bool_decide; cbn); by eexists.
Qed.

Section WellFormed.
Variable r : record.
Hypothesis Hwf : well_formed r.

Lemma well_formed_numeric (k : string) :
  k ∈ numeric_fields -> not_a_string (get r k).
Proof.
  destruct Hwf as [Hnum _]. rewrite Forall_forall in Hnum.
  intros Hk. specialize (Hnum k Hk). by destruct (get r k).
Qed.

Ltac numeric k :=
  let H := fresh "Hn" in
  assert (H : not_a_string (get r k))
    by (apply well_formed_numeric; unfold numeric_fields;
        rewrite !elem_of_cons; auto 20);
  destruct (get r k) eqn:?; [| |destruct H].

Lemma well_formed_luminosity :
  exists lum, resolve_star_luminosity r = Ok lum /\
    (lum = VNone \/ exists L, lum = VNum L /\ 0 <= L).
Proof.
  unfold resolve_star_luminosity.
  numeric "st_lum"%string; cbn.
  - numeric "st_rad"%string; numeric "st_teff"%string;
      unfold parse_stellar_luminosity; cbn;
      repeat (case_bool_decide; cbn);
      try (eexists; split; [reflexivity | by left]).
    eexists. split; [reflexivity|]. right. eexists. split; [reflexivity|].
    apply Rmult_le_pos; [nra|].
    match goal with |- 0 <= ?y * (?y * (?y * (?y * 1))) =>
      replace (y * (y * (y * (y * 1)))) with ((y * y) * (y * y)) by ring;
      apply Rmult_le_pos; nra
    end.
  - eexists. split; [reflexivity|]. right. eexists. split; [reflexivity|].
    destruct Hwf as (_ & HL & _). by apply HL.
Qed.

Lemma well_formed_distance : exists e, explain_distance r = Ok e.
Proof.
  unfold explain_distance, calculate_earth_distance_light_years.
  numeric "sy_dist"%string; numeric "sy_plx"%string; cbn;
    repeat (case_bool_decide; cbn); try (by eexists).
  all: rewrite py_div_ok by congruence; cbn;
    repeat (case_bool_decide; cbn); by eexists.
Qed.

Lemma well_formed_mass_suitable :
  exists b, habitable_mass_suitable (Some r) = Ok b.
Proof.
  cbn. numeric "pl_bmassj"%string; cbn; [|by eexists].
  numeric "pl_bmasse"%string; cbn; by eexists.
Qed.

Lemma well_formed_size_suitable :
  exists b, habitable_size_suitable (Some r) = Ok b.
Proof. cbn. numeric "pl_rade"%string; cbn; by eexists. Qed.

Lemma well_formed_habitability (lum : value) :
  (lum = VNone \/ exists L, lum = VNum L /\ 0 <= L) ->
  exists e, explain_habitability r lum = Ok e.
Proof.
  intros Hlum. unfold explain_habitability.
  destruct (truthy lum && truthy (get r "st_teff")
            && truthy (get r "pl_orbsmax")) eqn:Ht; [|by eexists].
  apply andb_true_iff in Ht as [Ht Hd].
  apply andb_true_iff in Ht as [HL HT].
  destruct Hlum as [->|(L & -> & HL0)]; [discriminate|].
  cbn in HL. apply bool_decide_eq_true in HL.
  numeric "st_teff"%string; try discriminate.
  cbn in HT. apply bool_decide_eq_true in HT.
  numeric "pl_orbsmax"%string; try discriminate.
  assert (HTr : 0 <= x <= 21600)
    by (destruct Hwf as (_ & _ & HTr & _); by apply HTr).
  destruct (zone_in_range L x) as (ri & ro & Hz & Hri & Hlt); [lra|done|].
  cbn. rewrite Hz. cbn.
  unfold calculate_hzd. rewrite py_div_ok by lra. cbn.
  destruct well_formed_mass_suitable as [ms Hms].
  destruct well_formed_size_suitable as [ss Hss].
  destruct (is_planet_habitable_table x0 ri ro _ _ ms ss Hms Hss)
    as (a & Ha & _).
  rewrite Ha. cbn.
  destruct (position_defined ((x0 - (ri + ro) / 2) / ((ro - ri) / 2)))
    as [p Hp].
  rewrite Hp. cbn. by eexists.
Qed.

Lemma classify_planet_returns (em er : value) :
  not_a_string em -> not_a_string er ->
  exists label, classify_planet em er = Ok label.
Proof.
  destruct em as [|m|], er as [|x|]; try done; intros _ _.
  - by eexists.
  - rewrite classify_planet_radius_only. by eexists.
  - rewrite classify_planet_mass_only. by eexists.
  - rewrite classify_planet_both_known. by eexists.
Qed.

Lemma well_formed_planet_type : exists e, explain_planet_type r = Ok e.
Proof.
  unfold explain_planet_type, get_planet_type.
  assert (Hm : exists em, planet_type_earth_mass (Some r) = Ok em /\
                          not_a_string em).
  { cbn. numeric "pl_bmassj"%string; cbn; [|by eexists].
    numeric "pl_bmasse"%string; cbn; [|by eexists].
    numeric "pl_msinij"%string; cbn; [|by eexists].
    numeric "pl_msinie"%string; cbn; by eexists. }
  assert (Hr : exists er, extract_earth_radius (Some r) = Ok er /\
                          not_a_string er).
  { cbn. numeric "pl_rade"%string; cbn; [|by eexists].
    numeric "pl_radj"%string; cbn; by eexists. }
  destruct Hm as (em & -> & Hem). destruct Hr as (er & -> & Her).
  cbn. destruct (classify_planet_returns em er Hem Her) as [label ->].
  cbn. by eexists.
Qed.

Lemma well_formed_size : exists e, explain_size r = Ok e.
Proof.
  unfold explain_size.
  numeric "pl_rade"%string; numeric "pl_radj"%string; cbn;
    repeat (case_bool_decide; cbn); by eexists.
Qed.

Lemma well_formed_mass : exists e, explain_mass r = Ok e.
Proof.
  unfold explain_mass.
  numeric "pl_bmasse"%string; numeric "pl_bmassj"%string;
    numeric "pl_msinie"%string; numeric "pl_msinij"%string; cbn;
    repeat (case_bool_decide; cbn); by eexists.
Qed.

Lemma well_formed_gravity : exists e, explain_gravity r = Ok e.
Proof.
  unfold explain_gravity, calculate_surface_gravity.
  destruct Hwf as (_ & _ & _ & He0 & Hj0 & _).
  assert (Hm : exists em, measured_earth_mass (Some r) = Ok em /\
                          not_a_string em).
  { cbn. numeric "pl_bmassj"%string; cbn; [|by eexists].
    numeric "pl_bmasse"%string; cbn; by eexists. }
  assert (Hr : exists er, extract_earth_radius (Some r) = Ok er /\
                          (er = VNone \/ exists x, er = VNum x /\ x <> 0)).
  { cbn. numeric "pl_rade"%string; cbn.
    - numeric "pl_radj"%string; cbn; [eexists; split; [done | by left]|].
      eexists. split; [done|]. right. eexists. split; [done|].
      intros H0. apply Hj0. f_equal. lra.
    - eexists. split; [done|]. right. eexists. split; [done|].
      intros ->. by apply He0. }
  destruct Hm as (em & -> & Hem). destruct Hr as (er & -> & Her).
  cbn. destruct em as [|m|]; [| |done]; cbn; [by eexists|].
  destruct Her as [->|(x & -> & Hx)]; cbn; [by eexists|].
  rewrite py_div_ok; [|intros [H0|H0]%Rmult_integral; lra].
  cbn. case_bool_decide; cbn; by eexists.
Qed.

Lemma well_formed_year_length : exists e, explain_year_length r = Ok e.
Proof.
  unfold explain_year_length.
  numeric "pl_orbper"%string; cbn; repeat (case_bool_decide; cbn);
    by eexists.
Qed.

Lemma well_formed_star_type : exists e, explain_star_type r = Ok e.
Proof.
  unfold explain_star_type.
  destruct (get_star_type_from_spectype (get r "st_spectype"))
    as [from_spectype|e] eqn:Hs.
  - rewrite bind_Ok. cbn beta.
    destruct (negb (label_truthy from_spectype) && truthy (get r "st_teff"))
      eqn:Hb.
    + apply andb_true_iff in Hb as [_ Ht].
      numeric "st_teff"%string; try discriminate.
      destruct (star_type_from_temp_returns x) as [st ->].
      cbn. repeat case_match; by eexists.
    + cbn. repeat case_match; by eexists.
  - exfalso.
    destruct (proj1 (get_star_type_from_spectype_raises
                       (get r "st_spectype")))
      as (s & Hv & Hne & Hw); [by exists e|].
    destruct Hwf as (_ & _ & _ & _ & _ & Hsp). by apply Hne, Hsp.
Qed.

Lemma well_formed_analysis : exists res, analyze_exoplanet r = Ok res.
Proof.
  unfold analyze_exoplanet.
  destruct well_formed_luminosity as (lum & -> & Hlum).
  rewrite bind_Ok. cbn beta.
  destruct well_formed_distance as [distance ->].
  rewrite bind_Ok. cbn beta.
  destruct (well_formed_habitability lum Hlum) as [habitability ->].
  rewrite bind_Ok. cbn beta.
  destruct well_formed_planet_type as [planet_type ->].
  rewrite bind_Ok. cbn beta.
  destruct well_formed_size as [size ->].
  rewrite bind_Ok. cbn beta.
  destruct well_formed_mass as [mass ->].
  rewrite bind_Ok. cbn beta.
  destruct well_formed_gravity as [gravity ->].
  rewrite bind_Ok. cbn beta.
  destruct well_formed_year_length as [year_length ->].
  rewrite bind_Ok. cbn beta.
  destruct well_formed_star_type as [star_type ->].
  rewrite bind_Ok. cbn beta.
  by eexists.
Qed.

End WellFormed.

(** X14: [analyze_exoplanet] returns an explanation for every
    well-formed record: numeric fields that are null, zero or numbers
    of a magnitude between 1e-9 and 1e9, a luminosity that is not
    negative, a stellar temperature from 0 K to 21600 K, radii other
    than zero and a spectral type that is not a non-empty string of
    whitespace. *)
Theorem well_formed_record_is_analyzed (r : record) :
  well_formed r -> exists res, analyze_exoplanet r = Ok res.
Proof. apply well_formed_analysis. Qed.

Lemma well_formed_record_is_analyzed_witness :
  exists res, analyze_exoplanet temperate = Ok res.
Proof.
  apply well_formed_record_is_analyzed.
  unfold well_formed, numeric_fields.
  repeat apply conj.
  - repeat (apply Forall_cons; split;
            [unfold ordinary, get, temperate; simplify_map_eq; try done;
             right; unfold Rabs; destruct (Rcase_abs _); lra|]).
    by apply Forall_nil.
  - intros L H. unfold get, temperate in H. simplify_map_eq. lra.
  - intros T H. unfold get, temperate in H. simplify_map_eq. lra.
  - unfold get, temperate. simplify_map_eq. intros [= H]. lra.
  - unfold get, temperate. by simplify_map_eq.
  - intros s H. unfold get, temperate in H. by simplify_map_eq.
Defined.

(** ** From the analysis to the planet card *)

(** The assessment of a habitability entry is one of four sentences. *)
Lemma explain_habitability_assessment (r : record) (lum : value) (e : entry) :
  explain_habitability r lum = Ok e ->
  exists a, fields e !! "assessment" = Some (VStr a) /\
    (a = "Unknown"%string \/ a = "Potentially habitable"%string \/
     a = unsuitable \/ a = "Not in habitable zone"%string).
Proof.
  unfold explain_habitability.
  destruct (truthy lum && truthy (get r "st_teff")
            && truthy (get r "pl_orbsmax")).
  - intros H.
    apply bind_Ok_inv in H as (l & _ & H).
    apply bind_Ok_inv in H as (t & _ & H).
    apply bind_Ok_inv in H as ([ri ro] & _ & H).
    apply bind_Ok_inv in H as (d & _ & H).
    apply bind_Ok_inv in H as (hzd & _ & H).
    apply bind_Ok_inv in H as (a & Ha & H).
    apply bind_Ok_inv in H as (position & _ & H).
    injection H as <-. exists a. split; [cbn [fields]; by simplify_map_eq|].
    apply is_planet_habitable_labels in Ha. tauto.
  - intros [= <-]. exists "Unknown"%string.
    split; [cbn [fields]; by simplify_map_eq | by left].
Qed.

(** X15: the assessment that [upload.py] stores for an analysed record
    is one of the four verdicts, and the habitable-zone flag that
    [exocli.py] derives from it by a substring test is "Yes" exactly for
    the verdicts "Not in habitable zone" and "In habitable zone but may
    not have right mass/size for habitability", and "No" for
    "Potentially habitable" and "Unknown". *)
Theorem card_flag_of_an_analysis (r : record) (res : explanation) :
  analyze_exoplanet r = Ok res ->
  exists a,
    stored_assessment res = VStr a /\
    (a = "Unknown"%string \/ a = "Potentially habitable"%string \/
     a = unsuitable \/ a = "Not in habitable zone"%string) /\
    (in_habitable_zone_flag (stored_assessment res) = Ok true <->
     a = unsuitable \/ a = "Not in habitable zone"%string) /\
    (in_habitable_zone_flag (stored_assessment res) = Ok false <->
     a = "Potentially habitable"%string \/ a = "Unknown"%string).
Proof.
  intros Hres.
  destruct (analyze_exoplanet_sections r res Hres)
    as (lum & d & h & g & _ & _ & Hh & _ & _ & Hsec & _).
  destruct (explain_habitability_assessment r lum h Hh) as (a & Ha & Hlabel).
  exists a. unfold stored_assessment, explained. rewrite Hsec. cbn.
  rewrite Ha. cbn. split; [done|]. split; [exact Hlabel|].
  unfold unsuitable in *.
  destruct Hlabel as [ -> | [ -> | [ -> | -> ] ] ]; vm_compute;
    (split; split; intros H; try discriminate;
     try (destruct H as [H|H]; discriminate); auto).
Qed.

Lemma card_flag_of_an_analysis_witness :
  exists res a,
    analyze_exoplanet all_zero = Ok res /\
    stored_assessment res = VStr a /\
    (in_habitable_zone_flag (stored_assessment res) = Ok false <->
     a = "Potentially habitable"%string \/ a = "Unknown"%string).
Proof.
  destruct all_zero_analyzed as [res Hres]. exists res.
  destruct (card_flag_of_an_analysis all_zero res Hres)
    as (a & Ha & _ & _ & Hflag).
  exists a. split; [exact Hres|]. split; [exact Ha | exact Hflag].
Defined.

(** ** The simplified habitability check of [app.py] *)



(** ** The bookkeeping of the batch loop *)

Lemma process_planet_count (st : batch) (planet : record) :
  size (processed_planets st) = length (results st) ->
  length (results st) = length (filter is_processed_line (printed st)) ->
  size (processed_planets (process_planet st planet))
  = length (results (process_planet st planet)) /\
  length (results (process_planet st planet))
  = length (filter is_processed_line (printed (process_planet st planet))).
Proof.
  intros Hsize Hlines. unfold process_planet.
  destruct (decide (get planet "pl_name" ∈ processed_planets st)) as [Hin|Hin].
  - cbn [results processed_planets printed].
    rewrite filter_app, length_app, filter_cons_False, filter_nil by tauto.
    cbn. split; [done | lia].
  - destruct (analyze_exoplanet planet) as [res|e];
      cbn [results processed_planets printed];
      rewrite filter_app, !length_app.
    + rewrite filter_cons_True, filter_nil by done.
      rewrite size_union by set_solver. rewrite size_singleton.
      cbn. split; lia.
    + rewrite filter_cons_False, filter_nil by tauto.
      cbn. split; [done | lia].
Qed.

Lemma process_planets_count (data : list record) (st : batch) :
  size (processed_planets st) = length (results st) ->
  length (results st) = length (filter is_processed_line (printed st)) ->
  size (processed_planets (process_planets st data))
  = length (results (process_planets st data)) /\
  length (results (process_planets st data))
  = length (filter is_processed_line (printed (process_planets st data))).
Proof.
  revert st. induction data as [|planet data IH]; intros st Hsize Hlines.
  - done.
  - rewrite process_planets_cons.
    destruct (process_planet_count st planet Hsize Hlines).
    by apply IH.
Qed.

(** X17: after the loop of [process_exoplanet_data], the number of
    unique planets it reports, the number of records in the output and
    the number of "Processed planet" lines are the same, and there are
    no more of them than input records. *)
Theorem reported_count_is_output_length (data : list record) :
  let st := process_planets (Batch [] ∅ []) data in
  size (processed_planets st) = length (results st) /\
  length (results st) = length (filter is_processed_line (printed st)) /\
  (length (results st) <= length data)%nat.
Proof.
  intros st.
  destruct (process_planets_count data (Batch [] ∅ [])) as [Hsize Hlines];
    [done | done |].
  fold st in Hsize, Hlines. split; [exact Hsize|]. split; [exact Hlines|].
  rewrite Hlines.
  destruct (process_planets_printed data (Batch [] ∅ []))
    as (new & Hnew & Hlen).
  fold st in Hnew. rewrite Hnew. cbn [printed app]. rewrite <- Hlen.
  apply length_filter.
Qed.

(** Records that raise or repeat a name already seen leave the results
    and the set of names as they are. *)
Lemma process_planets_nothing_new (l : list record) (st : batch) :
  Forall (λ planet, ~ analyzable planet \/
                    dedup_name planet ∈ processed_planets st) l ->
  results (process_planets st l) = results st /\
  processed_planets (process_planets st l) = processed_planets st.
Proof.
  revert st. induction l as [|planet l IH]; intros st Hall; [done|].
  apply Forall_cons in Hall as [Hplanet Hall].
  rewrite process_planets_cons.
  assert (Hsame : results (process_planet st planet) = results st /\
                  processed_planets (process_planet st planet)
                  = processed_planets st).
  { unfold process_planet. fold (dedup_name planet).
    destruct (decide (dedup_name planet ∈ processed_planets st)); [done|].
    destruct Hplanet as [Hno|Hin]; [|done].
    unfold analyzable in Hno.
    destruct (analyze_exoplanet planet); [|done].
    by destruct Hno. }
  destruct Hsame as [Hres Hset].
  rewrite <- Hres, <- Hset. apply IH. by rewrite Hset.
Qed.

(** X18: records appended to a batch leave its output unchanged when
    each of them either fails in the analysis or bears the name of a
    record of the batch that was analysed. *)
Theorem appended_repeats_add_nothing (data extra : list record) :
  Forall (adds_nothing_after data) extra ->
  results (process_planets (Batch [] ∅ []) (data ++ extra))
  = results (process_planets (Batch [] ∅ []) data).
Proof.
  intros Hall. rewrite process_planets_app.
  apply process_planets_nothing_new.
  eapply Forall_impl; [exact Hall|]. intros planet [Hno|Hseen]; [by left|].
  right. apply process_planets_seen. by right.
Qed.

(** Every record of a batch adds nothing after the batch: a batch
    followed by itself gives the output of the batch. *)
Lemma adds_nothing_after_itself (data : list record) :
  Forall (adds_nothing_after data) data.
Proof.
  apply Forall_forall. intros planet Hin.
  destruct (decide (analyzable planet)) as [Hyes|Hno]; [right | by left].
  apply Exists_exists. by exists planet.
Qed.

Lemma appended_repeats_add_nothing_witness :
  results (process_planets (Batch [] ∅ [])
             ([kepler_plain; kepler_hot] ++ [kepler_plain; kepler_hot]))
  = results (process_planets (Batch [] ∅ []) [kepler_plain; kepler_hot]).
Proof.
  apply appended_repeats_add_nothing. apply adds_nothing_after_itself.
Defined.

(** Among records of one name, only the first is a first occurrence. *)
Lemma first_occurrences_one_name (l : list record) (v : value) :
  Forall (λ planet, dedup_name planet = v) l ->
  first_occurrences l = take 1 l.
Proof.
  intros Hall. destruct Hall as [|planet l Hplanet Hall]; [done|].
  cbn [first_occurrences take]. f_equal.
  induction Hall as [|later l Hlater Hall IH]; [done|].
  cbn [first_occurrences].
  rewrite filter_cons_False by (intros Hne; apply Hne; congruence).
  rewrite list_filter_filter.
  erewrite list_filter_iff; [exact IH|].
  intros x. cbn. split; [tauto|]. intros Hx. split; [done | congruence].
Qed.

(** X19: records without a name (the key [pl_name] missing or null)
    count as duplicates of each other: of a list of such records, the
    output holds the analysis of the first one whose analysis returns,
    and nothing else. *)
Theorem nameless_records_share_one_slot (data : list record) :
  Forall nameless data ->
  Forall2 (λ planet res, analyze_exoplanet planet = Ok res)
    (take 1 (filter analyzable data))
    (results (process_planets (Batch [] ∅ []) data)).
Proof.
  intros Hall.
  destruct (process_planets_results data (Batch [] ∅ []))
    as (new & -> & Hnew).
  cbn [results processed_planets app] in *.
  rewrite (list_filter_iff _ analyzable) in Hnew.
  - rewrite (first_occurrences_one_name _ VNone) in Hnew; [exact Hnew|].
    apply Forall_forall. intros planet [_ Hin]%list_elem_of_filter.
    rewrite Forall_forall in Hall. by apply Hall.
  - intros x. split; [tauto|]. intros Hx.
    split; [exact Hx | apply not_elem_of_empty].
Qed.

Lemma nameless_records_share_one_slot_witness :
  Forall2 (λ planet res, analyze_exoplanet planet = Ok res)
    (take 1 (filter analyzable [earth_twin; all_zero]))
    (results (process_planets (Batch [] ∅ []) [earth_twin; all_zero])).
Proof.
  apply nameless_records_share_one_slot.
  repeat (apply Forall_cons; split; [reflexivity|]). by apply Forall_nil.
Defined.

(** ** The gravity section against the mass and size sections *)

(** The mass block when it falls through to the minimum masses: the
    entry has the note, or no mass. *)
Ltac no_measured_mass He Hm Hnote :=
  exfalso;
  destruct (truthy _ || truthy _);
    [ destruct (truthy _);
      apply bind_Ok_inv in He as (? & _ & He); injection He as <-;
      cbn [fields] in Hnote; by simplify_map_eq
    | injection He as <-; cbn [fields] in Hm; by simplify_map_eq ].

(** A measured mass shown by the mass section, when only one of the two
    measured-mass fields is filled, is the mass the gravity uses. *)
Lemma explain_mass_measured (r : record) (e : entry) (m : R) :
  explain_mass r = Ok e ->
  fields e !! "earth_mass_ratio" = Some (VNum m) ->
  fields e !! "note" = None ->
  get r "pl_bmassj" = VNone \/ get r "pl_bmasse" = VNone ->
  measured_earth_mass (Some r) = Ok (VNum m) /\ m <> 0.
Proof.
  unfold explain_mass, measured_earth_mass. intros He Hm Hnote Hone.
  destruct (get r "pl_bmasse") as [|me|se] eqn:Hbe;
    destruct (get r "pl_bmassj") as [|mj|sj] eqn:Hbj;
    try (by destruct Hone); clear Hone; cbn in He |- *.
  - no_measured_mass He Hm Hnote.
  - case_bool_decide as H0; cbn in He; [|no_measured_mass He Hm Hnote].
    injection He as <-. cbn [fields] in Hm. simplify_map_eq.
    split; [done | lra].
  - case_bool_decide; cbn in He; [discriminate|].
    no_measured_mass He Hm Hnote.
  - case_bool_decide as H0; cbn in He; [|no_measured_mass He Hm Hnote].
    injection He as <-. cbn [fields] in Hm. by simplify_map_eq.
  - case_bool_decide; cbn in He; [discriminate|].
    no_measured_mass He Hm Hnote.
Qed.

(** The radius shown by the size section is the radius the gravity
    uses, unless [pl_rade] holds a zero or an empty string. *)
Lemma explain_size_radius (r : record) (e : entry) (x : R) :
  explain_size r = Ok e ->
  fields e !! "earth_radius_ratio" = Some (VNum x) ->
  x <> 0 /\
  (extract_earth_radius (Some r) = Ok (VNum x) \/
   extract_earth_radius (Some r) = Ok (VNum 0) \/
   exists s, extract_earth_radius (Some r) = Ok (VStr s)).
Proof.
  unfold explain_size, extract_earth_radius. intros He Hx.
  destruct (get r "pl_rade") as [|xe|se] eqn:Hre; cbn in He |- *.
  - destruct (get r "pl_radj") as [|xj|sj] eqn:Hrj; cbn in He |- *.
    + injection He as <-. cbn [fields] in Hx. by simplify_map_eq.
    + case_bool_decide as H0; cbn in He; injection He as <-;
        cbn [fields] in Hx; simplify_map_eq.
      split; [lra | by left].
    + case_bool_decide; cbn in He; [discriminate|].
      injection He as <-. cbn [fields] in Hx. by simplify_map_eq.
  - case_bool_decide as H0; cbn in He.
    + injection He as <-. cbn [fields] in Hx. simplify_map_eq.
      split; [done | by left].
    + destruct (get r "pl_radj") as [|xj|sj] eqn:Hrj; cbn in He.
      * injection He as <-. cbn [fields] in Hx. by simplify_map_eq.
      * case_bool_decide as Hj0; cbn in He; injection He as <-;
          cbn [fields] in Hx; simplify_map_eq.
        split; [lra|]. right. left. reflexivity.
      * case_bool_decide; cbn in He; [discriminate|].
        injection He as <-. cbn [fields] in Hx. by simplify_map_eq.
  - case_bool_decide as H0; cbn in He; [discriminate|].
    destruct (get r "pl_radj") as [|xj|sj] eqn:Hrj; cbn in He.
    + injection He as <-. cbn [fields] in Hx. by simplify_map_eq.
    + case_bool_decide as Hj0; cbn in He; injection He as <-;
        cbn [fields] in Hx; simplify_map_eq.
      split; [lra|]. right. right. by eexists.
    + case_bool_decide; cbn in He; [discriminate|].
      injection He as <-. cbn [fields] in Hx. by simplify_map_eq.
Qed.

(** X20: within one explanation the three sections agree: when the mass
    section shows a measured mass [m] (no minimum-mass note) taken from
    a record that fills only one of [pl_bmasse] and [pl_bmassj], and the
    size section shows the radius [x], the gravity section shows
    [m / x^2]. *)
Theorem gravity_section_agrees_with_mass_and_size
    (r : record) (res : explanation) (m x : R) :
  analyze_exoplanet r = Ok res ->
  explained res "mass" "earth_mass_ratio" = Some (VNum m) ->
  explained res "mass" "note" = None ->
  explained res "size" "earth_radius_ratio" = Some (VNum x) ->
  get r "pl_bmassj" = VNone \/ get r "pl_bmasse" = VNone ->
  explained res "gravity" "earth_gravity_ratio" = Some (VNum (m / x ^ 2)).
Proof.
  unfold analyze_exoplanet. intros H.
  apply bind_Ok_inv in H as (lum & _ & H).
  apply bind_Ok_inv in H as (distance & _ & H).
  apply bind_Ok_inv in H as (habitability & _ & H).
  apply bind_Ok_inv in H as (planet_type & _ & H).
  apply bind_Ok_inv in H as (size & Hsize & H).
  apply bind_Ok_inv in H as (mass & Hmass & H).
  apply bind_Ok_inv in H as (gravity & Hgravity & H).
  apply bind_Ok_inv in H as (year_length & _ & H).
  apply bind_Ok_inv in H as (star_type & _ & H).
  injection H as <-. unfold explained. cbn [layman_explanation].
  simplify_map_eq. cbn. intros Hm Hnote Hx Hone.
  destruct (explain_mass_measured r mass m Hmass Hm Hnote Hone)
    as [Hmeasured Hm0].
  destruct (explain_size_radius r size x Hsize Hx) as [Hx0 Hradius].
  revert Hgravity. unfold explain_gravity, calculate_surface_gravity.
  rewrite Hmeasured.
  destruct Hradius as [->|[->|[s ->]]]; cbn.
  - rewrite py_div_ok by (intros [H0|H0]%Rmult_integral; lra). cbn.
    rewrite bool_decide_eq_true_2.
    + cbn. intros [= <-]. cbn [fields]. simplify_map_eq.
      reflexivity.
    + intros [H0|H0]%Rmult_integral; [done|].
      apply Rinv_neq_0_compat in H0; [done|].
      intros [H1|H1]%Rmult_integral; lra.
  - replace (0 * (0 * 1)) with 0 by lra. rewrite py_div_zero. done.
  - done.
Qed.

(** The mass and size sections of the sample record [earth_twin]. *)
Lemma earth_twin_analyzed :
  exists res,
    analyze_exoplanet earth_twin = Ok res /\
    explained res "mass" "earth_mass_ratio" = Some (VNum 1) /\
    explained res "mass" "note" = None /\
    explained res "size" "earth_radius_ratio" = Some (VNum 1).
Proof.
  run earth_twin. eexists. split; [reflexivity|].
  repeat apply conj; reflexivity.
Defined.

Lemma gravity_section_agrees_with_mass_and_size_witness :
  exists res,
    analyze_exoplanet earth_twin = Ok res /\
    explained res "gravity" "earth_gravity_ratio"
    = Some (VNum (1 / 1 ^ 2)).
Proof.
  destruct earth_twin_analyzed as (res & Hres & Hm & Hnote & Hx).
  exists res. split; [exact Hres|].
  apply (gravity_section_agrees_with_mass_and_size earth_twin res 1 1
           Hres Hm Hnote Hx).
  left. lookups earth_twin. reflexivity.
Defined.

(** ** A radius of zero *)

(** X21: a record with a measured mass whose radius resolves to zero
    ([pl_rade] is 0, or [pl_rade] is null and [pl_radj] is 0) makes
    [calculate_surface_gravity] divide by zero, and [analyze_exoplanet]
    raises on it: it returns no explanation. *)
Theorem zero_radius_with_mass_raises (r : record) (m : R) :
  measured_earth_mass (Some r) = Ok (VNum m) ->
  get r "pl_rade" = VNum 0 \/
  get r "pl_rade" = VNone /\ get r "pl_radj" = VNum 0 ->
  calculate_surface_gravity (Some r) (Some r) = Raise ZeroDivisionError /\
  exists e, analyze_exoplanet r = Raise e.
Proof.
  intros Hm Hr.
  assert (Hx : extract_earth_radius (Some r) = Ok (VNum 0)).
  { unfold extract_earth_radius.
    destruct Hr as [->|[-> ->]]; cbn; [done|]. do 2 f_equal. lra. }
  assert (Hg : calculate_surface_gravity (Some r) (Some r)
               = Raise ZeroDivisionError).
  { unfold calculate_surface_gravity. rewrite Hm, Hx. cbn.
    replace (0 * (0 * 1)) with 0 by lra. by rewrite py_div_zero. }
  split; [exact Hg|].
  destruct (analyze_exoplanet r) as [res|e] eqn:Hres; [|by exists e].
  destruct (analyze_exoplanet_sections r res Hres)
    as (lum & d & h & g & _ & _ & _ & Hgravity & _).
  unfold explain_gravity in Hgravity. rewrite Hg in Hgravity. done.
Qed.

Lemma zero_radius_with_mass_raises_witness :
  exists e, analyze_exoplanet {[ "pl_bmasse" := VNum 1;
                                 "pl_rade" := VNum 0 ]} = Raise e.
Proof.
  apply (zero_radius_with_mass_raises _ 1).
  - unfold measured_earth_mass, get. by simplify_map_eq.
  - left. unfold get. by simplify_map_eq.
Defined.
